(** * ScoreForge front end: a shallow embedding of the TypeScript client

    The development follows the layout of [frontend/]:
    - [Types]        <- [types/job.ts]
    - [OptionsForm]  <- [components/OptionsForm.tsx]
    - [Uploader]     <- [components/Uploader.tsx]
    - [JobStatus]    <- [components/JobStatus.tsx]
    - [Api]          <- [lib/api.ts]
    - [Results]      <- [components/Results.tsx]
    - [Page]         <- [app/page.tsx]

    TypeScript types are erased at run time, so run-time values that the
    code casts (`event.target.value as JobOptions['clef']`) are modelled
    as the strings they are; the declared types are modelled next to
    them so that both can be compared. *)

From Stdlib Require Import ZArith List Bool Lia Arith.
From Stdlib Require Import Strings.String Strings.Ascii Numbers.DecimalString.
Import ListNotations.

Set Warnings "-register-all".

Local Open Scope list_scope.
Local Open Scope string_scope.

(* ------------------------------------------------------------------ *)
(** ** JavaScript values used by the client *)

Module Js.

(** A JS [number] as the client uses it: a BPM, a percentage, an HTTP
    status.  Fractions do not occur in those roles; [NaN] is what
    [Number(...)] gives on text that is not a numeral. *)
Inductive number :=
| NaN
| Num (z : Z).

(** [String(n)] for an integer-valued number. *)
Definition String_of_Z (z : Z) : string :=
  NilEmpty.string_of_int (Z.to_int z).

Definition String_of_number (n : number) : string :=
  match n with
  | NaN => "NaN"
  | Num z => String_of_Z z
  end.

(** [String(b)] for a boolean. *)
Definition String_of_bool (b : bool) : string :=
  if b then "true" else "false".

(** Truthiness, as tested by [if (x)], [x && ...], [x || ...], [x ? :]. *)
Definition truthy_string (s : string) : bool :=
  match s with
  | EmptyString => false
  | String _ _ => true
  end.

Definition truthy_number (n : number) : bool :=
  match n with
  | NaN => false
  | Num z => negb (z =? 0)%Z
  end.

(** [Array.prototype.includes] on an array of strings. *)
Definition includes (xs : list string) (x : string) : bool :=
  existsb (String.eqb x) xs.

(** [Array.prototype.some]. *)
Definition some {A} (p : A -> bool) (xs : list A) : bool :=
  existsb p xs.

(** [String.prototype.toLowerCase], on the ASCII letters.  The accepted
    file extensions are ASCII, and no character outside ASCII lowercases
    to one of their letters. *)
Definition lower_ascii (c : ascii) : ascii :=
  let n := nat_of_ascii c in
  if ((65 <=? n)%nat && (n <=? 90)%nat)%bool then ascii_of_nat (n + 32) else c.

Fixpoint toLowerCase (s : string) : string :=
  match s with
  | EmptyString => EmptyString
  | String c s' => String (lower_ascii c) (toLowerCase s')
  end.

(** [String.prototype.endsWith]: the [length ext] characters that end at
    the end of [s] are compared with [ext]. *)
Definition endsWith (s ext : string) : bool :=
  let n := String.length s in
  let m := String.length ext in
  ((m <=? n)%nat && String.eqb (substring (n - m) m s) ext)%bool.

End Js.

(* ------------------------------------------------------------------ *)
(** ** [types/job.ts] *)

Module Types.

(** [type JobStatus = 'queued' | 'running' | 'done' | 'error'] *)
Inductive JobStatus := queued | running | done | error.

Definition JobStatus_eqb (a b : JobStatus) : bool :=
  match a, b with
  | queued, queued | running, running | done, done | error, error => true
  | _, _ => false
  end.

(** [type ClefChoice = 'treble' | 'alto' | 'tenor'] *)
Inductive ClefChoice := treble | alto | tenor.

(** The string literal behind each member of the union. *)
Definition ClefChoice_literal (c : ClefChoice) : string :=
  match c with
  | treble => "treble"
  | alto => "alto"
  | tenor => "tenor"
  end.

(** Whether a run-time string inhabits [ClefChoice]. *)
Definition ClefChoice_of_string (s : string) : option ClefChoice :=
  if String.eqb s "treble" then Some treble
  else if String.eqb s "alto" then Some alto
  else if String.eqb s "tenor" then Some tenor
  else None.

Definition ClefChoice_admits (s : string) : bool :=
  match ClefChoice_of_string s with
  | Some _ => true
  | None => false
  end.

(** [type QuantizationGrid = 'quarter' | 'eighth' | 'sixteenth'] *)
Inductive QuantizationGrid := quarter | eighth | sixteenth.

Definition QuantizationGrid_literal (q : QuantizationGrid) : string :=
  match q with
  | quarter => "quarter"
  | eighth => "eighth"
  | sixteenth => "sixteenth"
  end.

(** [interface JobMeta] *)
Record JobMeta := {
  title : option string;
  key : option string;
  time_signature : option string;
  meta_tempo : option Js.number;
  note_count : option Js.number;
  duration_seconds : option Js.number
}.

(** [interface JobArtifactUrls] *)
Record JobArtifactUrls := {
  pdf : option string;
  musicxml : option string;
  midi : option string
}.

(** [interface JobStatusResponse].  The member [error] is [error_text]
    here: [error] is the status literal.  An absent, [undefined] or [null]
    member is [None]. *)
Record JobStatusResponse := {
  status : JobStatus;
  progress : Z;
  error_text : option string;
  urls : JobArtifactUrls;
  meta : option JobMeta
}.

(** [interface CreateJobResponse] *)
Record CreateJobResponse := {
  job_id : string
}.

(** One member of an interface declaration: its key, the type written
    for it, and whether it carries the [?] marker. *)
Record Member := {
  member_key : string;
  member_type : string;
  member_optional : bool
}.

(** [interface JobOptions], member by member, in declaration order. *)
Definition JobOptions : list Member :=
  [ {| member_key := "clef"; member_type := "ClefChoice"; member_optional := false |};
    {| member_key := "tempo"; member_type := "number | null"; member_optional := true |};
    {| member_key := "force_key"; member_type := "string | null"; member_optional := true |};
    {| member_key := "detect_time_signature"; member_type := "boolean"; member_optional := false |};
    {| member_key := "quantization"; member_type := "QuantizationGrid"; member_optional := false |};
    {| member_key := "loose_quantization"; member_type := "boolean"; member_optional := false |} ].

(** [keyof JobOptions] *)
Definition keyof_JobOptions : list string :=
  map member_key JobOptions.

End Types.

(* ------------------------------------------------------------------ *)
(** ** The options object at run time

    [page.tsx] creates the object ([defaultOptions]) and every later
    object is a spread copy of it with one key replaced ([handleChange]),
    so its keys are those of the literal in [page.tsx]; the values are
    the run-time values, whatever the declared type says. *)

Module Options.

Record t := {
  clef : string;
  instrument : string;
  tempo : option Js.number;
  force_key : option string;
  detect_time_signature : bool;
  quantization : string;
  loose_quantization : bool
}.

(** [Object.keys] of the object, in insertion order. *)
Definition keys : list string :=
  [ "clef"; "instrument"; "tempo"; "force_key"; "detect_time_signature";
    "quantization"; "loose_quantization" ].

End Options.

(* ------------------------------------------------------------------ *)
(** ** [components/OptionsForm.tsx] *)

Module OptionsForm.

(** An entry of a [select]: [{ value, label }]. *)
Record Item := {
  value : string;
  label : string
}.

Definition clefs : list Item :=
  [ {| value := "treble"; label := "Treble" |};
    {| value := "alto"; label := "Alto" |};
    {| value := "tenor"; label := "Tenor" |};
    {| value := "bass"; label := "Bass" |} ].

Definition quantizationOptions : list Item :=
  [ {| value := "quarter"; label := "Quarter notes" |};
    {| value := "eighth"; label := "Eighth notes" |};
    {| value := "sixteenth"; label := "Sixteenth notes" |} ].

(** The [option] elements rendered by [clefs.map(...)]: the values the
    clef [select] can hand to its [onChange]. *)
Definition clef_select_values : list string :=
  map value clefs.

(** The pair [(key, value)] passed to [handleChange]. *)
Inductive Change :=
| Clef (v : string)
| Tempo (v : option Js.number)
| ForceKey (v : option string)
| Quantization (v : string)
| DetectTimeSignature (v : bool)
| LooseQuantization (v : bool).

(** [handleChange(key, value)]: the argument given to [onChange], that
    is [{ ...options, [key]: value }]. *)
Definition handleChange (options : Options.t) (c : Change) : Options.t :=
  match c with
  | Clef v =>
      {| Options.clef := v;
         Options.instrument := Options.instrument options;
         Options.tempo := Options.tempo options;
         Options.force_key := Options.force_key options;
         Options.detect_time_signature := Options.detect_time_signature options;
         Options.quantization := Options.quantization options;
         Options.loose_quantization := Options.loose_quantization options |}
  | Tempo v =>
      {| Options.clef := Options.clef options;
         Options.instrument := Options.instrument options;
         Options.tempo := v;
         Options.force_key := Options.force_key options;
         Options.detect_time_signature := Options.detect_time_signature options;
         Options.quantization := Options.quantization options;
         Options.loose_quantization := Options.loose_quantization options |}
  | ForceKey v =>
      {| Options.clef := Options.clef options;
         Options.instrument := Options.instrument options;
         Options.tempo := Options.tempo options;
         Options.force_key := v;
         Options.detect_time_signature := Options.detect_time_signature options;
         Options.quantization := Options.quantization options;
         Options.loose_quantization := Options.loose_quantization options |}
  | Quantization v =>
      {| Options.clef := Options.clef options;
         Options.instrument := Options.instrument options;
         Options.tempo := Options.tempo options;
         Options.force_key := Options.force_key options;
         Options.detect_time_signature := Options.detect_time_signature options;
         Options.quantization := v;
         Options.loose_quantization := Options.loose_quantization options |}
  | DetectTimeSignature v =>
      {| Options.clef := Options.clef options;
         Options.instrument := Options.instrument options;
         Options.tempo := Options.tempo options;
         Options.force_key := Options.force_key options;
         Options.detect_time_signature := v;
         Options.quantization := Options.quantization options;
         Options.loose_quantization := Options.loose_quantization options |}
  | LooseQuantization v =>
      {| Options.clef := Options.clef options;
         Options.instrument := Options.instrument options;
         Options.tempo := Options.tempo options;
         Options.force_key := Options.force_key options;
         Options.detect_time_signature := Options.detect_time_signature options;
         Options.quantization := Options.quantization options;
         Options.loose_quantization := v |}
  end.

(** The clef [select]'s [onChange]:
    [handleChange('clef', event.target.value as JobOptions['clef'])].
    The cast checks nothing at run time. *)
Definition clef_onChange (options : Options.t) (target_value : string) : Options.t :=
  handleChange options (Clef target_value).

(** The tempo input's [onChange]:
    [handleChange('tempo', event.target.value ? Number(event.target.value) : null)].
    [Number] is the platform's conversion. *)
Definition tempo_onChange (Number : string -> Js.number)
    (options : Options.t) (target_value : string) : Options.t :=
  handleChange options
    (Tempo (if Js.truthy_string target_value then Some (Number target_value) else None)).

(** The key input's [onChange]:
    [handleChange('force_key', event.target.value || null)]. *)
Definition force_key_onChange (options : Options.t) (target_value : string) : Options.t :=
  handleChange options
    (ForceKey (if Js.truthy_string target_value then Some target_value else None)).

(** The grid [select]'s [onChange]. *)
Definition quantization_onChange (options : Options.t) (target_value : string) : Options.t :=
  handleChange options (Quantization target_value).

(** [onCheckboxChange], for the two checkboxes the form renders; their
    [name] attributes are the keys. *)
Definition onCheckboxChange (options : Options.t) (name : string) (checked : bool)
  : Options.t :=
  if String.eqb name "detect_time_signature" then
    handleChange options (DetectTimeSignature checked)
  else if String.eqb name "loose_quantization" then
    handleChange options (LooseQuantization checked)
  else options.

(** A rendered control: which option it edits, the value it shows, its
    [min]/[max] attributes when it has them, and its [disabled] attribute. *)
Record Control := {
  control_key : string;
  control_value : string;
  control_min : option Z;
  control_max : option Z;
  control_disabled : bool
}.

(** What [OptionsForm] renders: two selects, two inputs, two checkboxes,
    each with [disabled={disabled}].  An omitted [disabled] prop is
    [undefined], which React treats as not disabled. *)
Definition OptionsForm (options : Options.t) (disabled : option bool) : list Control :=
  let d := match disabled with Some b => b | None => false end in
  [ {| control_key := "clef";
       control_value := Options.clef options;
       control_min := None; control_max := None;
       control_disabled := d |};
    {| control_key := "tempo";
       control_value :=
         match Options.tempo options with
         | Some n => Js.String_of_number n
         | None => EmptyString
         end;
       control_min := Some 40%Z; control_max := Some 240%Z;
       control_disabled := d |};
    {| control_key := "force_key";
       control_value :=
         match Options.force_key options with
         | Some k => k
         | None => EmptyString
         end;
       control_min := None; control_max := None;
       control_disabled := d |};
    {| control_key := "quantization";
       control_value := Options.quantization options;
       control_min := None; control_max := None;
       control_disabled := d |};
    {| control_key := "detect_time_signature";
       control_value := Js.String_of_bool (Options.detect_time_signature options);
       control_min := None; control_max := None;
       control_disabled := d |};
    {| control_key := "loose_quantization";
       control_value := Js.String_of_bool (Options.loose_quantization options);
       control_min := None; control_max := None;
       control_disabled := d |} ].

(** The key that a call of [handleChange] replaces. *)
Definition key_of (c : Change) : string :=
  match c with
  | Clef _ => "clef"
  | Tempo _ => "tempo"
  | ForceKey _ => "force_key"
  | Quantization _ => "quantization"
  | DetectTimeSignature _ => "detect_time_signature"
  | LooseQuantization _ => "loose_quantization"
  end.

End OptionsForm.

(* ------------------------------------------------------------------ *)
(** ** [components/Uploader.tsx] *)

Module Uploader.

(** The members of a DOM [File] that the client reads. *)
Record File := {
  name : string;
  type : string;
  size : Z
}.

Definition ACCEPTED_TYPES : list string :=
  [ "audio/wav"; "audio/x-wav"; "audio/mpeg"; "audio/mp3"; "audio/x-m4a";
    "audio/flac"; "audio/x-flac" ].

Definition ACCEPTED_EXTENSIONS : list string :=
  [ ".wav"; ".mp3"; ".m4a"; ".flac" ].

(** What a call of [handleFiles] does to the outside. *)
Inductive Effect :=
| alert (message : string)
| onFileSelected (file : File).

Definition unsupported_message : string :=
  "Unsupported file type. Please upload WAV, MP3, M4A, or FLAC files.".

(** [candidate.type && ACCEPTED_TYPES.includes(candidate.type)] *)
Definition isAllowedType (candidate : File) : bool :=
  Js.truthy_string (type candidate) && Js.includes ACCEPTED_TYPES (type candidate).

(** [ACCEPTED_EXTENSIONS.some(ext => candidate.name.toLowerCase().endsWith(ext))] *)
Definition hasAllowedExtension (candidate : File) : bool :=
  Js.some (fun ext => Js.endsWith (Js.toLowerCase (name candidate)) ext)
          ACCEPTED_EXTENSIONS.

(** [handleFiles(files: FileList | null)] *)
Definition handleFiles (files : option (list File)) : list Effect :=
  match files with
  | None => []
  | Some [] => []
  | Some (candidate :: _) =>
      if negb (isAllowedType candidate || hasAllowedExtension candidate)
      then [alert unsupported_message]
      else [onFileSelected candidate]
  end.

End Uploader.

(* ------------------------------------------------------------------ *)
(** ** [components/JobStatus.tsx] *)

Module JobStatus.

(** [statusLabels] *)
Definition statusLabels (status : Types.JobStatus) : string :=
  match status with
  | Types.queued => "Queued"
  | Types.running => "Processing"
  | Types.done => "Complete"
  | Types.error => "Error"
  end.

(** The inner [div] of the progress bar: its colour class and the
    [width] of its inline style. *)
Record Bar := {
  bar_class : string;
  width : string
}.

(** What [JobStatusPanel] renders: the badge, then either the bar with
    its caption or the error box, then the ready notice. *)
Record Panel := {
  badge : string;
  bar : option Bar;
  caption : option string;
  error_box : option string;
  ready_notice : bool
}.

(** The number interpolated into [width]:
    [status === 'done' ? 100 : progress]. *)
Definition bar_percent (status : Types.JobStatus) (progress : Z) : Z :=
  if Types.JobStatus_eqb status Types.done then 100%Z else progress.

(** [JobStatusPanel({ status, progress, error, description })] *)
Definition JobStatusPanel (status : Types.JobStatus) (progress : Z)
    (error description : option string) : Panel :=
  let is_error := Types.JobStatus_eqb status Types.error in
  let is_done := Types.JobStatus_eqb status Types.done in
  {| badge := statusLabels status;
     bar :=
       if negb is_error then
         Some {| bar_class := if is_done then "bg-emerald-400" else "bg-accent";
                 width := Js.String_of_Z (bar_percent status progress) ++ "%" |}
       else None;
     caption :=
       if negb is_error then
         Some match description with
              | Some d => d
              | None =>
                  if Types.JobStatus_eqb status Types.running
                  then "Transcribing and engraving…"
                  else "Waiting for job to start…"
              end
       else None;
     error_box :=
       if negb is_error then None
       else Some match error with
                 | Some e => e
                 | None => "Unknown error encountered. Please try again."
                 end;
     ready_notice := is_done |}.

End JobStatus.

(* ------------------------------------------------------------------ *)
(** ** [lib/api.ts] *)

Module Api.

(** A value produced by [JSON.parse].  A number is held as the text
    that [String] gives for it ([12], [-3.5], [1e+21]): a number and
    that text determine each other, and the client never computes with
    a number of a response body. *)
Inductive Json :=
| JNull
| JBool (b : bool)
| JNumber (text : string)
| JString (s : string)
| JArray (items : list Json)
| JObject (members : list (string * Json)).

(** *** A model of [JSON.parse]

    [onload] below takes the parser as a parameter, so what is proved of
    it holds of the platform's parser.  The examples need a parser to
    run on: this one reads the JSON texts whose numbers are integers of
    size up to [Number.MAX_SAFE_INTEGER] and whose strings have no [\u]
    escapes, and refuses every other text. *)

Definition quote : ascii := ascii_of_nat 34.

(** [s] between double quotes. *)
Definition quoted (s : string) : string :=
  String quote s ++ String quote EmptyString.

Definition is_ws (c : ascii) : bool :=
  let n := nat_of_ascii c in
  ((n =? 32) || (n =? 9) || (n =? 10) || (n =? 13))%nat.

Fixpoint skip_ws (s : string) : string :=
  match s with
  | String c rest => if is_ws c then skip_ws rest else s
  | EmptyString => s
  end.

Fixpoint strip_prefix (p s : string) : option string :=
  match p, s with
  | EmptyString, _ => Some s
  | String a p', String b s' => if Ascii.eqb a b then strip_prefix p' s' else None
  | String _ _, EmptyString => None
  end.

Definition is_digit (c : ascii) : bool :=
  let n := nat_of_ascii c in ((48 <=? n) && (n <=? 57))%nat.

Fixpoint take_digits (s : string) : string * string :=
  match s with
  | String c rest =>
      if is_digit c then let (ds, r) := take_digits rest in (String c ds, r)
      else (EmptyString, s)
  | EmptyString => (EmptyString, s)
  end.

Definition starts_fraction (s : string) : bool :=
  match s with
  | String c _ => (Ascii.eqb c "." || Ascii.eqb c "e" || Ascii.eqb c "E")%bool
  | EmptyString => false
  end.

(** [Number.MAX_SAFE_INTEGER]: up to it, an integer literal denotes
    itself and [String] gives its digits back. *)
Definition MAX_SAFE_INTEGER : Z := 9007199254740991.

Definition parse_number (s : string) : option (Z * string) :=
  let (neg, s1) := match s with
                   | String "-" r => (true, r)
                   | _ => (false, s)
                   end in
  let (ds, rest) := take_digits s1 in
  match ds with
  | EmptyString => None
  | String "0" (String _ _) => None
  | _ =>
      if starts_fraction rest then None
      else match NilEmpty.uint_of_string ds with
           | Some u => Some (if neg then Z.opp (Z.of_uint u) else Z.of_uint u, rest)
           | None => None
           end
  end.

Definition unescape (c : ascii) : option ascii :=
  if Ascii.eqb c quote then Some quote
  else if Ascii.eqb c "\" then Some "\"%char
  else if Ascii.eqb c "/" then Some "/"%char
  else if Ascii.eqb c "n" then Some (ascii_of_nat 10)
  else if Ascii.eqb c "t" then Some (ascii_of_nat 9)
  else if Ascii.eqb c "r" then Some (ascii_of_nat 13)
  else if Ascii.eqb c "b" then Some (ascii_of_nat 8)
  else if Ascii.eqb c "f" then Some (ascii_of_nat 12)
  else None.

(** The characters of a string literal, after its opening quote. *)
Fixpoint parse_chars (s : string) : option (string * string) :=
  match s with
  | EmptyString => None
  | String c rest =>
      if Ascii.eqb c quote then Some (EmptyString, rest)
      else if Ascii.eqb c "\" then
        match rest with
        | String e rest' =>
            match unescape e, parse_chars rest' with
            | Some c', Some (str, r) => Some (String c' str, r)
            | _, _ => None
            end
        | EmptyString => None
        end
      else if (nat_of_ascii c <? 32)%nat then None
      else match parse_chars rest with
           | Some (str, r) => Some (String c str, r)
           | None => None
           end
  end.

(** A repeated key keeps its place and takes the later value. *)
Fixpoint put (k : string) (v : Json) (members : list (string * Json))
  : list (string * Json) :=
  match members with
  | [] => [(k, v)]
  | (k', v') :: rest =>
      if String.eqb k k' then (k, v) :: rest else (k', v') :: put k v rest
  end.

Fixpoint parse_value (fuel : nat) (s : string) {struct fuel} : option (Json * string) :=
  match fuel with
  | O => None
  | S fuel' =>
      match skip_ws s with
      | EmptyString => None
      | String c rest as s' =>
          if Ascii.eqb c quote then
            match parse_chars rest with
            | Some (str, r) => Some (JString str, r)
            | None => None
            end
          else if Ascii.eqb c "[" then
            match skip_ws rest with
            | String "]" r => Some (JArray [], r)
            | _ => parse_items fuel' rest []
            end
          else if Ascii.eqb c "{" then
            match skip_ws rest with
            | String "}" r => Some (JObject [], r)
            | _ => parse_members fuel' rest []
            end
          else
            match strip_prefix "null" s', strip_prefix "true" s',
                  strip_prefix "false" s' with
            | Some r, _, _ => Some (JNull, r)
            | _, Some r, _ => Some (JBool true, r)
            | _, _, Some r => Some (JBool false, r)
            | _, _, _ =>
                match parse_number s' with
                | Some (z, r) =>
                    if (Z.abs z <=? MAX_SAFE_INTEGER)%Z
                    then Some (JNumber (Js.String_of_Z z), r)
                    else None
                | None => None
                end
            end
      end
  end
with parse_items (fuel : nat) (s : string) (acc : list Json) {struct fuel}
  : option (Json * string) :=
  match fuel with
  | O => None
  | S fuel' =>
      match parse_value fuel' s with
      | Some (v, r) =>
          match skip_ws r with
          | String "," r' => parse_items fuel' r' (acc ++ [v])%list
          | String "]" r' => Some (JArray (acc ++ [v])%list, r')
          | _ => None
          end
      | None => None
      end
  end
with parse_members (fuel : nat) (s : string) (acc : list (string * Json)) {struct fuel}
  : option (Json * string) :=
  match fuel with
  | O => None
  | S fuel' =>
      match skip_ws s with
      | String c rest =>
          if Ascii.eqb c quote then
            match parse_chars rest with
            | Some (k, r) =>
                match skip_ws r with
                | String ":" r1 =>
                    match parse_value fuel' r1 with
                    | Some (v, r2) =>
                        match skip_ws r2 with
                        | String "," r3 => parse_members fuel' r3 (put k v acc)
                        | String "}" r3 => Some (JObject (put k v acc), r3)
                        | _ => None
                        end
                    | None => None
                    end
                | _ => None
                end
            | None => None
            end
          else None
      | EmptyString => None
      end
  end.

(** The whole text must be one value; every call consumes a character, so
    the length of the text is fuel enough. *)
Definition JSON_parse (text : string) : option Json :=
  match parse_value (S (String.length text)) text with
  | Some (v, rest) =>
      match skip_ws rest with
      | EmptyString => Some v
      | String _ _ => None
      end
  | None => None
  end.

(** The result of reading a property: a value or [undefined]; reading a
    property of [null] throws a [TypeError]. *)
Inductive Property :=
| Undefined
| Value (v : Json)
| Throws.

Fixpoint lookup (k : string) (members : list (string * Json)) : option Json :=
  match members with
  | [] => None
  | (k', v) :: rest => if String.eqb k k' then Some v else lookup k rest
  end.

(** [payload.detail] *)
Definition get_detail (payload : Json) : Property :=
  match payload with
  | JNull => Throws
  | JObject members =>
      match lookup "detail" members with
      | Some v => Value v
      | None => Undefined
      end
  | JBool _ | JNumber _ | JString _ | JArray _ => Undefined
  end.

(** [ToString], which [new Error(message)] applies to its argument;
    [None] stands for the [TypeError] it throws.  An object is converted
    by the [toString] it inherits, which gives [[object Object]], unless
    it has a key [toString] of its own: a value from [JSON.parse] is
    not callable, the inherited [valueOf] returns the object itself, and
    no primitive is obtained.  An array joins the conversions of its
    elements, [null] counting as the empty text. *)
Fixpoint ToString (v : Json) : option string :=
  match v with
  | JNull => Some "null"
  | JBool b => Some (Js.String_of_bool b)
  | JNumber text => Some text
  | JString s => Some s
  | JArray items =>
      (fix join (xs : list Json) : option string :=
         match xs with
         | [] => Some EmptyString
         | x :: rest =>
             match match x with JNull => Some EmptyString | _ => ToString x end with
             | None => None
             | Some e =>
                 match rest with
                 | [] => Some e
                 | _ :: _ =>
                     match join rest with
                     | Some t => Some (e ++ "," ++ t)
                     | None => None
                     end
                 end
             end
         end) items
  | JObject members =>
      match lookup "toString" members with
      | Some _ => None
      | None => Some "[object Object]"
      end
  end.

(** What the promise is rejected with. *)
Inductive Rejection :=
| SyntaxError
| Error (message : string).

(** How the promise of [uploadJobWithProgress] settles. *)
Inductive Settled :=
| Resolved (response : Json)
| Rejected (reason : Rejection).

(** The members of the [XMLHttpRequest] read by [onload]. *)
Record Xhr := {
  status : Z;
  responseText : string
}.

(** [`Upload failed with status ${xhr.status}`] *)
Definition upload_failed (status : Z) : string :=
  "Upload failed with status " ++ Js.String_of_Z status.

(** The message of the error that the [else] branch of [onload] rejects
    with: [payload.detail ?? `Upload failed with status ${xhr.status}`]
    as converted by [new Error]; when reading [detail] or converting it
    throws, the [catch] gives the generic message. *)
Definition detail_or_generic (detail : Property) (status : Z) : string :=
  match detail with
  | Value JNull | Undefined | Throws => upload_failed status
  | Value v =>
      match ToString v with
      | Some message => message
      | None => upload_failed status
      end
  end.

(** [xhr.onload].  [JSON_parse] is the platform's parser; [None] stands
    for the [SyntaxError] it throws. *)
Definition onload (JSON_parse : string -> option Json) (xhr : Xhr) : Settled :=
  if ((200 <=? status xhr)%Z && (status xhr <? 300)%Z)%bool then
    match JSON_parse (responseText xhr) with
    | Some response => Resolved response
    | None => Rejected SyntaxError
    end
  else
    match JSON_parse (responseText xhr) with
    | Some payload =>
        match get_detail payload with
        | Throws => Rejected (Error (upload_failed (status xhr)))
        | detail => Rejected (Error (detail_or_generic detail (status xhr)))
        end
    | None => Rejected (Error (upload_failed (status xhr)))
    end.

(** [xhr.onerror] *)
Definition onerror : Settled :=
  Rejected (Error "Network error during upload").

(** The two ways the request ends. *)
Inductive XhrEvent :=
| Load (xhr : Xhr)
| NetworkError.

(** [uploadJobWithProgress], as a function of how the request ends. *)
Definition uploadJobWithProgress (JSON_parse : string -> option Json)
    (e : XhrEvent) : Settled :=
  match e with
  | Load xhr => onload JSON_parse xhr
  | NetworkError => onerror
  end.

(** The members of the [Response] read by [fetchJobStatus]; [json] is
    what [response.json()] gives: the body, or the message of the error
    it throws. *)
Record Response := {
  ok : bool;
  statusText : string;
  json : Types.JobStatusResponse + string
}.

(** How [fetch] ends: with a response, or rejected (the network failed)
    with an error of the given message. *)
Inductive FetchOutcome :=
| Responded (response : Response)
| Failed (message : string).

(** How the promise of [fetchJobStatus] settles: with the body, or with
    an error of the given message. *)
Inductive Fetched :=
| Fulfilled (body : Types.JobStatusResponse)
| Thrown (message : string).

(** [fetchJobStatus(jobId)], as a function of how [fetch] ends. *)
Definition fetchJobStatus (outcome : FetchOutcome) : Fetched :=
  match outcome with
  | Failed message => Thrown message
  | Responded response =>
      if negb (ok response)
      then Thrown ("Failed to fetch job status: " ++ statusText response)
      else match json response with
           | inl body => Fulfilled body
           | inr message => Thrown message
           end
  end.

End Api.

(* ------------------------------------------------------------------ *)
(** ** [components/Results.tsx] *)

Module Results.

(** [Object.values(urls).some(Boolean)]: the panel, and with it the
    [New transcription] button, is rendered only then. *)
Definition hasResults (urls : Types.JobArtifactUrls) : bool :=
  let truthy u := match u with Some s => Js.truthy_string s | None => false end in
  truthy (Types.pdf urls) || truthy (Types.musicxml urls) || truthy (Types.midi urls).

(** [downloadItems]: the key into [urls] and the label, in order. *)
Definition downloadItems : list (string * string) :=
  [ ("pdf", "PDF score"); ("musicxml", "MusicXML"); ("midi", "MIDI") ].

(** [urls[item.key]] *)
Definition url_of (urls : Types.JobArtifactUrls) (key : string) : option string :=
  if String.eqb key "pdf" then Types.pdf urls
  else if String.eqb key "musicxml" then Types.musicxml urls
  else if String.eqb key "midi" then Types.midi urls
  else None.

(** A rendered download link: its label, its [href] (absent when the
    url is [null] or [undefined]) and its [aria-disabled]. *)
Record Anchor := {
  anchor_label : string;
  href : option string;
  aria_disabled : bool
}.

(** The links rendered by [downloadItems.map(...)]. *)
Definition download_links (urls : Types.JobArtifactUrls) : list Anchor :=
  map (fun item =>
         let href := url_of urls (fst item) in
         let disabled :=
           negb match href with Some u => Js.truthy_string u | None => false end in
         {| anchor_label := snd item; href := href; aria_disabled := disabled |})
      downloadItems.

(** The download section of [ResultsPanel]: [None] when the component
    returns [null]. *)
Definition downloads (urls : Types.JobArtifactUrls) : option (list Anchor) :=
  if negb (hasResults urls) then None else Some (download_links urls).

End Results.

(* ------------------------------------------------------------------ *)
(** ** [app/page.tsx] *)

Module Page.

(** A value appended to a [FormData]. *)
Inductive FormValue :=
| Blob (file : Uploader.File)
| Text (s : string).

(** A [FormData]: its entries in the order of the [append] calls. *)
Definition FormData := list (string * FormValue).

Definition append (fd : FormData) (name : string) (v : FormValue) : FormData :=
  (fd ++ [(name, v)])%list.

(** [FormData.prototype.has] and [getAll]. *)
Definition has (fd : FormData) (name : string) : bool :=
  existsb (fun e => String.eqb (fst e) name) fd.

Definition getAll (fd : FormData) (name : string) : list FormValue :=
  map snd (filter (fun e => String.eqb (fst e) name) fd).

Definition defaultOptions : Options.t :=
  {| Options.clef := "treble";
     Options.instrument := "piano";
     Options.tempo := None;
     Options.force_key := None;
     Options.detect_time_signature := true;
     Options.quantization := "eighth";
     Options.loose_quantization := false |}.

(** The [formData] built by [handleSubmit] once a file is selected. *)
Definition build_formData (selectedFile : Uploader.File) (options : Options.t)
  : FormData :=
  let formData : FormData := [] in
  let formData := append formData "file" (Blob selectedFile) in
  let formData := append formData "clef" (Text (Options.clef options)) in
  let formData := append formData "instrument" (Text (Options.instrument options)) in
  let formData :=
    match Options.tempo options with
    | Some n =>
        if Js.truthy_number n
        then append formData "tempo" (Text (Js.String_of_number n))
        else formData
    | None => formData
    end in
  let formData :=
    match Options.force_key options with
    | Some k =>
        if Js.truthy_string k
        then append formData "force_key" (Text k)
        else formData
    | None => formData
    end in
  let formData :=
    append formData "detect_time_signature"
           (Text (Js.String_of_bool (Options.detect_time_signature options))) in
  let formData := append formData "quantization" (Text (Options.quantization options)) in
  append formData "loose_quantization"
         (Text (Js.String_of_bool (Options.loose_quantization options))).

(** The component's [useState] cells. *)
Record State := {
  selectedFile : option Uploader.File;
  options : Options.t;
  jobId : option string;
  status : Types.JobStatus;
  progress : Z;
  eta : option Js.number;
  isUploading : bool;
  error : option string;
  statusDescription : option string;
  jobResult : option Types.JobStatusResponse
}.

Definition initial : State :=
  {| selectedFile := None;
     options := defaultOptions;
     jobId := None;
     status := Types.queued;
     progress := 0%Z;
     eta := None;
     isUploading := false;
     error := None;
     statusDescription := None;
     jobResult := None |}.

(** [response.status === 'done' || response.status === 'error'] *)
Definition is_terminal (s : Types.JobStatus) : bool :=
  Types.JobStatus_eqb s Types.done || Types.JobStatus_eqb s Types.error.

(** The description chosen by the [switch] of [poll]. *)
Definition describe (response : Types.JobStatusResponse) : option string :=
  match Types.status response with
  | Types.queued => Some "Waiting in queue…"
  | Types.running =>
      if (Types.progress response <? 50)%Z then Some "Transcribing audio to MIDI…"
      else if (Types.progress response <? 90)%Z
           then Some "Quantizing and preparing MusicXML…"
           else Some "Engraving score to PDF…"
  | Types.done => Some "Complete"
  | Types.error =>
      Some match Types.error_text response with
           | Some e => e
           | None => "An error occurred"
           end
  end.

(** The state after the setters that [poll] calls on a response. *)
Definition observe (s : State) (response : Types.JobStatusResponse) : State :=
  {| selectedFile := selectedFile s;
     options := options s;
     jobId := jobId s;
     status := Types.status response;
     progress := Types.progress response;
     eta := eta s;
     isUploading := isUploading s;
     error := error s;
     statusDescription := describe response;
     jobResult := Some response |}.

(** [setError(message)] *)
Definition setError (s : State) (e : option string) : State :=
  {| selectedFile := selectedFile s;
     options := options s;
     jobId := jobId s;
     status := status s;
     progress := progress s;
     eta := eta s;
     isUploading := isUploading s;
     error := e;
     statusDescription := statusDescription s;
     jobResult := jobResult s |}.

(** [onFileSelected] and [onClearFile] *)
Definition setSelectedFile (s : State) (f : option Uploader.File) : State :=
  {| selectedFile := f;
     options := options s;
     jobId := jobId s;
     status := status s;
     progress := progress s;
     eta := eta s;
     isUploading := isUploading s;
     error := None;
     statusDescription := statusDescription s;
     jobResult := jobResult s |}.

(** [setOptions] *)
Definition setOptions (s : State) (o : Options.t) : State :=
  {| selectedFile := selectedFile s;
     options := o;
     jobId := jobId s;
     status := status s;
     progress := progress s;
     eta := eta s;
     isUploading := isUploading s;
     error := error s;
     statusDescription := statusDescription s;
     jobResult := jobResult s |}.

(** [resetAll]: every cell but [isUploading] goes back to its initial
    value. *)
Definition resetAll (s : State) : State :=
  {| selectedFile := None;
     options := defaultOptions;
     jobId := None;
     status := Types.queued;
     progress := 0%Z;
     eta := None;
     isUploading := isUploading s;
     error := None;
     statusDescription := None;
     jobResult := None |}.

(** The setters of [handleSubmit] between building the form data and
    awaiting the upload. *)
Definition begin_upload (s : State) : State :=
  {| selectedFile := selectedFile s;
     options := options s;
     jobId := None;
     status := Types.queued;
     progress := 0%Z;
     eta := None;
     isUploading := true;
     error := None;
     statusDescription := Some "Uploading audio…";
     jobResult := None |}.

(** The progress callback given to [uploadJobWithProgress]. *)
Definition upload_progress (s : State) (value : Z) (estimatedSeconds : option Js.number)
  : State :=
  {| selectedFile := selectedFile s;
     options := options s;
     jobId := jobId s;
     status := status s;
     progress := value;
     eta := estimatedSeconds;
     isUploading := isUploading s;
     error := error s;
     statusDescription := statusDescription s;
     jobResult := jobResult s |}.

(** After the [await]: the [try] branch. *)
Definition upload_resolved (s : State) (response : Types.CreateJobResponse) : State :=
  {| selectedFile := selectedFile s;
     options := options s;
     jobId := Some (Types.job_id response);
     status := status s;
     progress := progress s;
     eta := eta s;
     isUploading := false;
     error := error s;
     statusDescription := Some "Queued for processing…";
     jobResult := jobResult s |}.

(** After the [await]: the [catch] branch. *)
Definition upload_rejected (s : State) (message : string) : State :=
  {| selectedFile := selectedFile s;
     options := options s;
     jobId := jobId s;
     status := status s;
     progress := progress s;
     eta := eta s;
     isUploading := false;
     error := Some message;
     statusDescription := statusDescription s;
     jobResult := jobResult s |}.

(** [handleSubmit], up to its [await]: the new state and the request
    sent, if one is. *)
Definition handleSubmit (s : State) : State * option FormData :=
  match selectedFile s with
  | None => (setError s (Some "Please select an audio file first."), None)
  | Some file => (begin_upload s, Some (build_formData file (options s)))
  end.

(** [jobId !== null && status !== 'error' && status !== 'done'] *)
Definition job_active (s : State) : bool :=
  match jobId s with
  | Some _ =>
      negb (Types.JobStatus_eqb (status s) Types.error)
      && negb (Types.JobStatus_eqb (status s) Types.done)
  | None => false
  end.

Definition disableControls (s : State) : bool :=
  isUploading s || job_active s.

(** The submit button's [disabled={disableControls || !selectedFile}]. *)
Definition submit_disabled (s : State) : bool :=
  disableControls s
  || match selectedFile s with Some _ => false | None => true end.

(** The controls of [<OptionsForm ... disabled={disableControls} />]. *)
Definition option_controls (s : State) : list OptionsForm.Control :=
  OptionsForm.OptionsForm (options s) (Some (disableControls s)).

(** The button's text:
    [jobId && status !== 'error' && status !== 'done' ? 'Processing…' : 'Convert to score']. *)
Definition submit_label (s : State) : string :=
  if match jobId s with
     | Some id =>
         Js.truthy_string id
         && negb (Types.JobStatus_eqb (status s) Types.error)
         && negb (Types.JobStatus_eqb (status s) Types.done)
     | None => false
     end
  then "Processing…" else "Convert to score".

(** *** The polling effect, [useEffect(..., [jobId])]

    One run of the effect owns the variables [cancelled] and [interval].
    The timer registered by [setInterval(poll, 1000)] fires every
    [POLL_INTERVAL_MS] until it is cleared; [fired] counts its firings
    and [started] lists when each call of [poll] began, in milliseconds
    since the effect ran.  [in_flight] counts the calls of
    [fetchJobStatus] that have not settled. *)

Definition POLL_INTERVAL_MS : Z := 1000.

Record Effect := {
  cancelled : bool;
  interval : bool;
  fired : nat;
  started : list Z;
  in_flight : nat
}.

(** [poll(); interval = setInterval(poll, 1000);] *)
Definition effect_start : Effect :=
  {| cancelled := false;
     interval := true;
     fired := 0;
     started := [0%Z];
     in_flight := 1 |}.

(** The timer fires and calls [poll], which calls [fetchJobStatus]. *)
Definition effect_tick (e : Effect) : Effect :=
  {| cancelled := cancelled e;
     interval := interval e;
     fired := S (fired e);
     started := (started e ++ [(POLL_INTERVAL_MS * Z.of_nat (S (fired e)))%Z])%list;
     in_flight := S (in_flight e) |}.

(** One call of [fetchJobStatus] settles; [clear] tells whether
    [clearInterval(interval)] is reached. *)
Definition effect_settle (e : Effect) (clear : bool) : Effect :=
  {| cancelled := cancelled e;
     interval := interval e && negb clear;
     fired := fired e;
     started := started e;
     in_flight := pred (in_flight e) |}.

(** The function returned by the effect:
    [cancelled = true; clearInterval(interval);] *)
Definition effect_cleanup (e : Effect) : Effect :=
  {| cancelled := true;
     interval := false;
     fired := fired e;
     started := started e;
     in_flight := in_flight e |}.

(** *** The page as a transition system

    [ui] holds the state cells, [effect] the current run of the polling
    effect, [xhr_pending] the upload requests sent and not yet settled,
    [sent] every request ever sent. *)
Record World := {
  ui : State;
  effect : option Effect;
  xhr_pending : nat;
  sent : list FormData
}.

Definition initial_world : World :=
  {| ui := initial; effect := None; xhr_pending := 0; sent := [] |}.

Definition option_string_eqb (a b : option string) : bool :=
  match a, b with
  | Some x, Some y => String.eqb x y
  | None, None => true
  | _, _ => false
  end.

(** What React does to the effect when [jobId] goes from [old] to [new]:
    nothing if it is unchanged; otherwise the previous run is cleaned up
    and the effect runs again, returning at once when [!jobId].  A run
    that was cleaned up ignores whatever still settles, so it is dropped
    when a new run takes its place. *)
Definition commit_jobId (old new : option string) (e : option Effect)
  : option Effect :=
  if option_string_eqb old new then e
  else
    match new with
    | Some id =>
        if Js.truthy_string id then Some effect_start
        else option_map effect_cleanup e
    | None => option_map effect_cleanup e
    end.

Definition with_ui (w : World) (s : State) : World :=
  {| ui := s;
     effect := commit_jobId (jobId (ui w)) (jobId s) (effect w);
     xhr_pending := xhr_pending w;
     sent := sent w |}.

Inductive Event :=
| Files (files : option (list Uploader.File))
| ClearFile
| Edit (c : OptionsForm.Change)
| Submit
| UploadProgress (value : Z) (estimatedSeconds : option Js.number)
| UploadResolved (response : Types.CreateJobResponse)
| UploadRejected (message : string)
| Tick
| FetchResolved (response : Types.JobStatusResponse)
| FetchRejected (message : string)
| Reset.

(** The state after the effects of [Uploader.handleFiles]. *)
Fixpoint apply_uploader (s : State) (effects : list Uploader.Effect) : State :=
  match effects with
  | [] => s
  | Uploader.alert _ :: rest => apply_uploader s rest
  | Uploader.onFileSelected f :: rest => apply_uploader (setSelectedFile s (Some f)) rest
  end.

(** [jobResult?.urls ?? { pdf: null, musicxml: null, midi: null }] *)
Definition resultsUrls (s : State) : Types.JobArtifactUrls :=
  match jobResult s with
  | Some r => Types.urls r
  | None => {| Types.pdf := None; Types.musicxml := None; Types.midi := None |}
  end.

(** One event.  [None] means the event cannot happen in that state: a
    disabled control does not fire, the form is not submitted through a
    disabled button, a cleared timer does not fire, and nothing settles
    that is not pending. *)
Definition step (w : World) (ev : Event) : option World :=
  let s := ui w in
  match ev with
  | Files files => Some (with_ui w (apply_uploader s (Uploader.handleFiles files)))
  | ClearFile =>
      match selectedFile s with
      | Some _ => if isUploading s then None else Some (with_ui w (setSelectedFile s None))
      | None => None
      end
  | Edit c =>
      if disableControls s then None
      else Some (with_ui w (setOptions s (OptionsForm.handleChange (options s) c)))
  | Submit =>
      if submit_disabled s then None
      else
        let (s', request) := handleSubmit s in
        Some {| ui := s';
                effect := commit_jobId (jobId s) (jobId s') (effect w);
                xhr_pending :=
                  match request with
                  | Some _ => S (xhr_pending w)
                  | None => xhr_pending w
                  end;
                sent :=
                  match request with
                  | Some fd => (sent w ++ [fd])%list
                  | None => sent w
                  end |}
  | UploadProgress value estimatedSeconds =>
      match xhr_pending w with
      | O => None
      | S _ => Some (with_ui w (upload_progress s value estimatedSeconds))
      end
  | UploadResolved response =>
      match xhr_pending w with
      | O => None
      | S n =>
          let s' := upload_resolved s response in
          Some {| ui := s';
                  effect := commit_jobId (jobId s) (jobId s') (effect w);
                  xhr_pending := n;
                  sent := sent w |}
      end
  | UploadRejected message =>
      match xhr_pending w with
      | O => None
      | S n =>
          Some {| ui := upload_rejected s message;
                  effect := effect w;
                  xhr_pending := n;
                  sent := sent w |}
      end
  | Tick =>
      match effect w with
      | Some e =>
          if interval e
          then Some {| ui := s; effect := Some (effect_tick e);
                       xhr_pending := xhr_pending w; sent := sent w |}
          else None
      | None => None
      end
  | FetchResolved response =>
      match effect w with
      | Some e =>
          match in_flight e with
          | O => None
          | S _ =>
              if cancelled e
              then Some {| ui := s; effect := Some (effect_settle e false);
                           xhr_pending := xhr_pending w; sent := sent w |}
              else Some {| ui := observe s response;
                           effect := Some (effect_settle e (is_terminal (Types.status response)));
                           xhr_pending := xhr_pending w; sent := sent w |}
          end
      | None => None
      end
  | FetchRejected message =>
      match effect w with
      | Some e =>
          match in_flight e with
          | O => None
          | S _ =>
              Some {| ui := if cancelled e then s else setError s (Some message);
                      effect := Some (effect_settle e false);
                      xhr_pending := xhr_pending w; sent := sent w |}
          end
      | None => None
      end
  | Reset =>
      if Results.hasResults (resultsUrls s)
      then Some (with_ui w (resetAll s))
      else None
  end.

Fixpoint run (w : World) (evs : list Event) : option World :=
  match evs with
  | [] => Some w
  | ev :: rest =>
      match step w ev with
      | Some w' => run w' rest
      | None => None
      end
  end.

(** The state reached from the initial one by [evs] (the initial state
    itself if some event of [evs] cannot happen). *)
Definition after (evs : list Event) : World :=
  match run initial_world evs with
  | Some w => w
  | None => initial_world
  end.

(** The events of the polling loop itself. *)
Definition poll_event (ev : Event) : bool :=
  match ev with
  | Tick | FetchResolved _ | FetchRejected _ => true
  | _ => false
  end.


(** The start times of the calls of [poll] when the timer has fired [n]
    times: one call at once, then one per period. *)
Definition poll_times (n : nat) : list Z :=
  map (fun k => (POLL_INTERVAL_MS * Z.of_nat k)%Z) (seq 0 (S n)).

(** What holds of every state the page can reach. *)
Record invariant (w : World) : Prop := {
  inv_pending :
    xhr_pending w = if isUploading (ui w) then 1 else 0;
  inv_uploading :
    isUploading (ui w) = true ->
    jobId (ui w) = None /\ status (ui w) = Types.queued /\ jobResult (ui w) = None;
  inv_live :
    forall e, effect w = Some e -> cancelled e = false ->
              exists id, jobId (ui w) = Some id;
  inv_cancelled :
    forall e, effect w = Some e -> cancelled e = true -> interval e = false;
  inv_started :
    forall e, effect w = Some e -> started e = poll_times (fired e)
}.

(** [<JobStatusPanel status={status} progress={progress}
    error={jobResult?.error} description={statusDescription} />] *)
Definition status_panel (s : State) : JobStatus.Panel :=
  JobStatus.JobStatusPanel (status s) (progress s)
    match jobResult s with
    | Some r => Types.error_text r
    | None => None
    end
    (statusDescription s).

(** The download section of
    [<ResultsPanel meta={jobResult?.meta} urls={resultsUrls} onReset={resetAll} />]. *)
Definition results_downloads (s : State) : option (list Results.Anchor) :=
  Results.downloads (resultsUrls s).

(** The event by which a call of [fetchJobStatus] made by [poll] settles,
    given how its [fetch] ended; the [catch] of [poll] reads the error's
    message. *)
Definition fetch_event (outcome : Api.FetchOutcome) : Event :=
  match Api.fetchJobStatus outcome with
  | Api.Fulfilled body => FetchResolved body
  | Api.Thrown message => FetchRejected message
  end.

End Page.

(* ================================================================== *)
(** * Properties *)

(** ** Strings *)

Lemma substring_whole (s : string) :
  substring 0 (String.length s) s = s.
Proof.
  induction s as [|c s IH]; simpl; [reflexivity|].
  now rewrite IH.
Qed.

Lemma substring_suffix (p ext : string) :
  substring (String.length p) (String.length ext) (p ++ ext) = ext.
Proof.
  induction p as [|c p IH]; simpl.
  - apply substring_whole.
  - exact IH.
Qed.

Lemma length_append (p q : string) :
  String.length (p ++ q) = String.length p + String.length q.
Proof.
  induction p as [|c p IH]; simpl; [reflexivity|].
  now rewrite IH.
Qed.

Lemma substring_split (s : string) (k : nat) :
  k <= String.length s ->
  s = substring 0 k s ++ substring k (String.length s - k) s.
Proof.
  revert k.
  induction s as [|c s IH]; intros k Hk; simpl in *.
  - destruct k; [reflexivity|lia].
  - destruct k as [|k]; simpl.
    + now rewrite substring_whole.
    + f_equal. apply IH. lia.
Qed.

(** [endsWith] holds exactly of the strings that are some prefix followed
    by [ext]. *)
Lemma endsWith_spec (s ext : string) :
  Js.endsWith s ext = true <-> exists p, s = p ++ ext.
Proof.
  unfold Js.endsWith.
  rewrite andb_true_iff, Nat.leb_le, String.eqb_eq.
  split.
  - intros [Hle Hsub].
    exists (substring 0 (String.length s - String.length ext) s).
    pose proof (substring_split s (String.length s - String.length ext)) as H.
    replace (String.length s - (String.length s - String.length ext))
      with (String.length ext) in H by lia.
    rewrite Hsub in H.
    apply H. lia.
  - intros [p ->].
    rewrite length_append.
    split; [lia|].
    replace (String.length p + String.length ext - String.length ext)
      with (String.length p) by lia.
    apply substring_suffix.
Qed.

Lemma includes_In (xs : list string) (x : string) :
  Js.includes xs x = true <-> In x xs.
Proof.
  unfold Js.includes.
  rewrite existsb_exists.
  split.
  - intros [y [Hy Heq]]. apply String.eqb_eq in Heq. now subst.
  - intros H. exists x. split; [assumption|apply String.eqb_refl].
Qed.

(** ** The clef option ([types/job.ts], [OptionsForm.tsx]) *)

Lemma ClefChoice_of_string_literal (c : Types.ClefChoice) :
  Types.ClefChoice_of_string (Types.ClefChoice_literal c) = Some c.
Proof. destruct c; reflexivity. Qed.

Lemma ClefChoice_of_string_sound (s : string) (c : Types.ClefChoice) :
  Types.ClefChoice_of_string s = Some c -> Types.ClefChoice_literal c = s.
Proof.
  unfold Types.ClefChoice_of_string.
  destruct (String.eqb_spec s "treble") as [->|_]; [intros [= <-]; reflexivity|].
  destruct (String.eqb_spec s "alto") as [->|_]; [intros [= <-]; reflexivity|].
  destruct (String.eqb_spec s "tenor") as [->|_]; [intros [= <-]; reflexivity|].
  discriminate.
Qed.

(** C2.  The clef select offers exactly treble, alto, tenor and bass, and
    every member of the declared type [ClefChoice] is among them; but
    the declared type has no member for bass: the select hands [bass] to
    [handleChange] through a cast, and the options object then carries a
    clef that [JobOptions['clef']] does not admit. *)
Theorem clef_bass_offered_but_not_admitted :
  OptionsForm.clef_select_values = ["treble"; "alto"; "tenor"; "bass"]
  /\ (forall c : Types.ClefChoice,
        In (Types.ClefChoice_literal c) OptionsForm.clef_select_values)
  /\ (forall s, Types.ClefChoice_admits s = true ->
                In s ["treble"; "alto"; "tenor"; "bass"])
  /\ In "bass" OptionsForm.clef_select_values
  /\ Types.ClefChoice_admits "bass" = false
  /\ (forall c : Types.ClefChoice, Types.ClefChoice_literal c <> "bass")
  /\ Options.clef (OptionsForm.clef_onChange Page.defaultOptions "bass") = "bass".
Proof.
  repeat split.
  - intros c. destruct c; simpl; auto.
  - intros s H. unfold Types.ClefChoice_admits in H.
    destruct (Types.ClefChoice_of_string s) as [c|] eqn:E; [|discriminate].
    apply ClefChoice_of_string_sound in E. subst s.
    destruct c; simpl; auto.
  - simpl; auto.
  - intros c. destruct c; discriminate.
Qed.

(** ** The instrument field ([page.tsx], [types/job.ts]) *)

Lemma has_append (fd : Page.FormData) (k k' : string) (v : Page.FormValue) :
  Page.has (Page.append fd k' v) k = Page.has fd k || String.eqb k' k.
Proof.
  unfold Page.has, Page.append.
  rewrite existsb_app. simpl. now rewrite orb_false_r.
Qed.

Lemma getAll_append (fd : Page.FormData) (k k' : string) (v : Page.FormValue) :
  Page.getAll (Page.append fd k' v) k
  = (Page.getAll fd k ++ (if String.eqb k' k then [v] else []))%list.
Proof.
  unfold Page.getAll, Page.append.
  rewrite filter_app, map_app. simpl.
  destruct (String.eqb k' k); reflexivity.
Qed.

(** C3.  Every request built by [handleSubmit] carries exactly one
    [instrument] entry, the [instrument] of the options object (which is
    [piano] from [defaultOptions] on, no handler of the form replacing
    it); but [instrument] is not a member of the declared interface
    [JobOptions], although it is a key of the object that the interface
    is meant to describe. *)
Theorem instrument_sent_but_not_declared :
  (forall (s : Page.State) (file : Uploader.File),
      Page.selectedFile s = Some file ->
      exists fd,
        snd (Page.handleSubmit s) = Some fd
        /\ Page.getAll fd "instrument"
           = [Page.Text (Options.instrument (Page.options s))])
  /\ Options.instrument Page.defaultOptions = "piano"
  /\ (forall o c,
        Options.instrument (OptionsForm.handleChange o c) = Options.instrument o)
  /\ In "instrument" Options.keys
  /\ ~ In "instrument" Types.keyof_JobOptions.
Proof.
  split; [|split; [|split; [|split]]].
  - intros s file Hf. unfold Page.handleSubmit. rewrite Hf.
    eexists. split; [reflexivity|].
    unfold Page.build_formData.
    destruct (Options.tempo (Page.options s)) as [n|];
      [destruct (Js.truthy_number n)|];
      (destruct (Options.force_key (Page.options s)) as [k|];
       [destruct (Js.truthy_string k)|]);
      repeat (rewrite getAll_append; simpl); reflexivity.
  - reflexivity.
  - intros o c. destruct c; reflexivity.
  - simpl; auto.
  - simpl. intros H.
    repeat (destruct H as [H|H]; [discriminate H|]). exact H.
Qed.

(** ** File acceptance ([Uploader.tsx]) *)

Lemma accepted_type_truthy (t : string) :
  In t Uploader.ACCEPTED_TYPES -> Js.truthy_string t = true.
Proof.
  simpl. intros H.
  repeat (destruct H as [<-|H]; [reflexivity|]).
  contradiction.
Qed.

Lemma isAllowedType_spec (f : Uploader.File) :
  Uploader.isAllowedType f = true <-> In (Uploader.type f) Uploader.ACCEPTED_TYPES.
Proof.
  unfold Uploader.isAllowedType.
  rewrite andb_true_iff, includes_In.
  split; [tauto|].
  intros H. split; [now apply accepted_type_truthy|assumption].
Qed.

Lemma hasAllowedExtension_spec (f : Uploader.File) :
  Uploader.hasAllowedExtension f = true
  <-> exists ext, In ext Uploader.ACCEPTED_EXTENSIONS
                  /\ exists p, Js.toLowerCase (Uploader.name f) = p ++ ext.
Proof.
  unfold Uploader.hasAllowedExtension, Js.some.
  rewrite existsb_exists.
  split; intros [ext [Hin H]]; exists ext; (split; [assumption|]);
    now apply endsWith_spec.
Qed.

Lemma acceptance_spec (f : Uploader.File) :
  Uploader.isAllowedType f || Uploader.hasAllowedExtension f = true
  <-> (In (Uploader.type f) Uploader.ACCEPTED_TYPES
       \/ exists ext, In ext Uploader.ACCEPTED_EXTENSIONS
                      /\ exists p, Js.toLowerCase (Uploader.name f) = p ++ ext).
Proof.
  now rewrite orb_true_iff, isAllowedType_spec, hasAllowedExtension_spec.
Qed.

(** The decision of [handleFiles] is a function of the candidate's
    [type] and [name] alone. *)
Lemma acceptance_by_type_and_name (f1 f2 : Uploader.File) :
  Uploader.name f1 = Uploader.name f2 ->
  Uploader.type f1 = Uploader.type f2 ->
  Uploader.isAllowedType f1 || Uploader.hasAllowedExtension f1
  = Uploader.isAllowedType f2 || Uploader.hasAllowedExtension f2.
Proof.
  unfold Uploader.isAllowedType, Uploader.hasAllowedExtension.
  now intros -> ->.
Qed.

Lemma handleFiles_selected (candidate : Uploader.File) (rest : list Uploader.File) :
  Uploader.handleFiles (Some (candidate :: rest)) = [Uploader.onFileSelected candidate]
  <-> Uploader.isAllowedType candidate || Uploader.hasAllowedExtension candidate = true.
Proof.
  simpl.
  destruct (Uploader.isAllowedType candidate || Uploader.hasAllowedExtension candidate);
    simpl; split; intros H; try reflexivity; discriminate.
Qed.

(** C5.  The first file offered is handed to [onFileSelected], and so
    becomes the page's selected file, if and only if its type is one of
    [ACCEPTED_TYPES] or its lowercased name is some prefix followed by
    one of [ACCEPTED_EXTENSIONS]; if and only if not, the one effect is
    the unsupported-type alert and the page's selected file stays as it
    was. *)
Theorem handleFiles_selects_iff_supported :
  forall (candidate : Uploader.File) (rest : list Uploader.File) (s : Page.State),
    (Uploader.handleFiles (Some (candidate :: rest)) = [Uploader.onFileSelected candidate]
     <-> (In (Uploader.type candidate)
             ["audio/wav"; "audio/x-wav"; "audio/mpeg"; "audio/mp3"; "audio/x-m4a";
              "audio/flac"; "audio/x-flac"]
          \/ exists ext, In ext [".wav"; ".mp3"; ".m4a"; ".flac"]
                         /\ exists p, Js.toLowerCase (Uploader.name candidate) = p ++ ext))
    /\ (Uploader.handleFiles (Some (candidate :: rest))
        = [Uploader.alert
             "Unsupported file type. Please upload WAV, MP3, M4A, or FLAC files."]
        <-> ~ (In (Uploader.type candidate)
                 ["audio/wav"; "audio/x-wav"; "audio/mpeg"; "audio/mp3"; "audio/x-m4a";
                  "audio/flac"; "audio/x-flac"]
               \/ exists ext, In ext [".wav"; ".mp3"; ".m4a"; ".flac"]
                              /\ exists p,
                                  Js.toLowerCase (Uploader.name candidate) = p ++ ext))
    /\ Page.selectedFile
         (Page.apply_uploader s (Uploader.handleFiles (Some (candidate :: rest))))
       = if Uploader.isAllowedType candidate || Uploader.hasAllowedExtension candidate
         then Some candidate
         else Page.selectedFile s.
Proof.
  intros candidate rest s.
  pose proof (acceptance_spec candidate) as Hspec.
  simpl in *.
  destruct (Uploader.isAllowedType candidate || Uploader.hasAllowedExtension candidate);
    simpl; repeat split; try reflexivity; try discriminate.
  - intros _. now apply Hspec.
  - intros Hno. contradiction Hno. now apply Hspec.
  - intros Hyes. apply Hspec in Hyes. discriminate.
  - intros _ Hyes. apply Hspec in Hyes. discriminate.
Qed.

(** A recording whose browser-reported type is empty and whose name ends
    in upper-case [.WAV] is selected; a PDF is refused. *)
Example handleFiles_examples :
  let take := {| Uploader.name := "Take 1.WAV"; Uploader.type := EmptyString;
                 Uploader.size := 2048%Z |} in
  let score := {| Uploader.name := "score.pdf"; Uploader.type := "application/pdf";
                  Uploader.size := 2048%Z |} in
  Uploader.handleFiles (Some [take]) = [Uploader.onFileSelected take]
  /\ Uploader.handleFiles (Some [score]) = [Uploader.alert Uploader.unsupported_message]
  /\ Uploader.handleFiles (Some []) = []
  /\ Uploader.handleFiles None = [].
Proof. repeat split. Qed.

(** C9.  Two candidates with the same name and type are treated alike
    whatever their sizes; a 25 MB file named [take.wav] is selected and
    then sent by [handleSubmit]; and [handleSubmit] sends whatever file is
    selected, of any size. *)
Theorem acceptance_independent_of_size :
  (forall (f1 f2 : Uploader.File) (rest1 rest2 : list Uploader.File),
      Uploader.name f1 = Uploader.name f2 ->
      Uploader.type f1 = Uploader.type f2 ->
      (Uploader.handleFiles (Some (f1 :: rest1)) = [Uploader.onFileSelected f1]
       <-> Uploader.handleFiles (Some (f2 :: rest2)) = [Uploader.onFileSelected f2]))
  /\ (let big := {| Uploader.name := "take.wav";
                    Uploader.type := EmptyString;
                    Uploader.size := (25 * 1024 * 1024)%Z |} in
      Uploader.handleFiles (Some [big]) = [Uploader.onFileSelected big]
      /\ option_map Page.sent
           (Page.run Page.initial_world [Page.Files (Some [big]); Page.Submit])
         = Some [Page.build_formData big Page.defaultOptions])
  /\ (forall (s : Page.State) (file : Uploader.File),
        Page.selectedFile s = Some file ->
        exists fd, snd (Page.handleSubmit s) = Some fd
                   /\ Page.getAll fd "file" = [Page.Blob file]).
Proof.
  split; [|split].
  - intros f1 f2 rest1 rest2 Hn Ht.
    rewrite !handleFiles_selected.
    now rewrite (acceptance_by_type_and_name f1 f2 Hn Ht).
  - split; reflexivity.
  - intros s file Hf. unfold Page.handleSubmit. rewrite Hf.
    eexists. split; [reflexivity|].
    unfold Page.build_formData.
    destruct (Options.tempo (Page.options s)) as [n|];
      [destruct (Js.truthy_number n)|];
      (destruct (Options.force_key (Page.options s)) as [k|];
       [destruct (Js.truthy_string k)|]);
      repeat (rewrite getAll_append; simpl); reflexivity.
Qed.

(** ** The progress bar ([JobStatus.tsx]) *)

(** C8.  At [done] the bar is 100 percent wide whatever the progress; at
    [queued] and [running] its width is the progress itself.  (At
    [error] no bar is rendered.) *)
Theorem bar_width_pinned_at_done :
  forall (progress : Z) (error description : option string),
    option_map JobStatus.width
      (JobStatus.bar (JobStatus.JobStatusPanel Types.done progress error description))
    = Some "100%"
    /\ option_map JobStatus.width
         (JobStatus.bar (JobStatus.JobStatusPanel Types.queued progress error description))
       = Some (Js.String_of_Z progress ++ "%")
    /\ option_map JobStatus.width
         (JobStatus.bar (JobStatus.JobStatusPanel Types.running progress error description))
       = Some (Js.String_of_Z progress ++ "%")
    /\ JobStatus.bar_percent Types.done progress = 100%Z
    /\ JobStatus.bar_percent Types.queued progress = progress
    /\ JobStatus.bar_percent Types.running progress = progress.
Proof.
  intros progress error description.
  repeat split.
Qed.

(** ** Optional fields of the request ([page.tsx], [OptionsForm.tsx]) *)

Lemma build_formData_has_tempo (file : Uploader.File) (o : Options.t) :
  Page.has (Page.build_formData file o) "tempo"
  = match Options.tempo o with
    | Some n => Js.truthy_number n
    | None => false
    end.
Proof.
  unfold Page.build_formData.
  destruct (Options.tempo o) as [n|];
    [destruct (Js.truthy_number n)|];
    (destruct (Options.force_key o) as [k|];
     [destruct (Js.truthy_string k)|]);
    repeat (rewrite has_append; simpl); reflexivity.
Qed.

Lemma build_formData_has_force_key (file : Uploader.File) (o : Options.t) :
  Page.has (Page.build_formData file o) "force_key"
  = match Options.force_key o with
    | Some k => Js.truthy_string k
    | None => false
    end.
Proof.
  unfold Page.build_formData.
  destruct (Options.tempo o) as [n|];
    [destruct (Js.truthy_number n)|];
    (destruct (Options.force_key o) as [k|];
     [destruct (Js.truthy_string k)|]);
    repeat (rewrite has_append; simpl); reflexivity.
Qed.

Lemma build_formData_getAll_tempo (file : Uploader.File) (o : Options.t) :
  Page.getAll (Page.build_formData file o) "tempo"
  = match Options.tempo o with
    | Some n => if Js.truthy_number n then [Page.Text (Js.String_of_number n)] else []
    | None => []
    end.
Proof.
  unfold Page.build_formData.
  destruct (Options.tempo o) as [n|];
    [destruct (Js.truthy_number n)|];
    (destruct (Options.force_key o) as [k|];
     [destruct (Js.truthy_string k)|]);
    repeat (rewrite getAll_append; simpl); reflexivity.
Qed.

Lemma build_formData_getAll_force_key (file : Uploader.File) (o : Options.t) :
  Page.getAll (Page.build_formData file o) "force_key"
  = match Options.force_key o with
    | Some k => if Js.truthy_string k then [Page.Text k] else []
    | None => []
    end.
Proof.
  unfold Page.build_formData.
  destruct (Options.tempo o) as [n|];
    [destruct (Js.truthy_number n)|];
    (destruct (Options.force_key o) as [k|];
     [destruct (Js.truthy_string k)|]);
    repeat (rewrite getAll_append; simpl); reflexivity.
Qed.

Lemma truthy_string_nonempty (s : string) :
  Js.truthy_string s = true <-> s <> EmptyString.
Proof.
  destruct s; simpl; split; intros H; try reflexivity; try discriminate.
  now contradiction H.
Qed.

(** C6.  With the tempo, when set, within the range of the form's input
    (40 to 240), the request has a [tempo] entry if and only if a tempo
    is set, and the entry is that number; it has a [force_key] entry if
    and only if the key is set and not empty, and the entry is that key;
    the form's handlers store an empty input as [null], for the key and
    for the tempo alike; and the form's tempo input carries the bounds 40
    and 240. *)
Theorem optional_fields_sent_iff_set :
  forall (file : Uploader.File) (o : Options.t),
    (forall n, Options.tempo o = Some n ->
               exists z, n = Js.Num z /\ (40 <= z <= 240)%Z) ->
    (Page.has (Page.build_formData file o) "tempo" = true
     <-> Options.tempo o <> None)
    /\ (forall n, Options.tempo o = Some n ->
          Page.getAll (Page.build_formData file o) "tempo"
          = [Page.Text (Js.String_of_number n)])
    /\ (Page.has (Page.build_formData file o) "force_key" = true
        <-> exists k, Options.force_key o = Some k /\ k <> EmptyString)
    /\ (forall k, Options.force_key o = Some k -> k <> EmptyString ->
          Page.getAll (Page.build_formData file o) "force_key" = [Page.Text k])
    /\ (forall o' v,
          Options.force_key (OptionsForm.force_key_onChange o' v)
          = if String.eqb v EmptyString then None else Some v)
    /\ (forall Number o',
          Options.tempo (OptionsForm.tempo_onChange Number o' EmptyString) = None)
    /\ (forall o' disabled,
          exists c, In c (OptionsForm.OptionsForm o' disabled)
                    /\ OptionsForm.control_key c = "tempo"
                    /\ OptionsForm.control_min c = Some 40%Z
                    /\ OptionsForm.control_max c = Some 240%Z).
Proof.
  intros file o Hrange.
  assert (Htruthy : forall n, Options.tempo o = Some n -> Js.truthy_number n = true).
  { intros n Hn. destruct (Hrange n Hn) as [z [-> Hz]]. simpl.
    destruct (Z.eqb_spec z 0); [lia|reflexivity]. }
  split; [|split; [|split; [|split; [|split; [|split]]]]].
  - rewrite build_formData_has_tempo.
    destruct (Options.tempo o) as [n|] eqn:E.
    + rewrite (Htruthy n eq_refl). split; [discriminate|reflexivity].
    + split; [discriminate|]. intros H. now contradiction H.
  - intros n Hn. rewrite build_formData_getAll_tempo, Hn.
    now rewrite (Htruthy n Hn).
  - rewrite build_formData_has_force_key.
    destruct (Options.force_key o) as [k|].
    + rewrite truthy_string_nonempty. split.
      * intros H. now exists k.
      * intros [k' [[= <-] H]]. exact H.
    + split; [discriminate|]. intros [k [H _]]. discriminate H.
  - intros k Hk Hne. rewrite build_formData_getAll_force_key, Hk.
    apply truthy_string_nonempty in Hne. now rewrite Hne.
  - intros o' v. destruct v; reflexivity.
  - intros Number o'. reflexivity.
  - intros o' disabled. eexists. split; [right; left; reflexivity|].
    repeat split.
Qed.

(** A submission at 120 BPM in a forced key. *)
Lemma optional_fields_sent_iff_set_witness :
  let file := {| Uploader.name := "clip.mp3"; Uploader.type := "audio/mpeg";
                 Uploader.size := 1000%Z |} in
  let o := OptionsForm.force_key_onChange
             (OptionsForm.handleChange Page.defaultOptions
                (OptionsForm.Tempo (Some (Js.Num 120))))
             "C major" in
  Page.getAll (Page.build_formData file o) "tempo" = [Page.Text "120"]
  /\ Page.getAll (Page.build_formData file o) "force_key" = [Page.Text "C major"].
Proof.
  intros file o.
  assert (Hrange : forall n, Options.tempo o = Some n ->
                             exists z, n = Js.Num z /\ (40 <= z <= 240)%Z).
  { intros n [= <-]. exists 120%Z. split; [reflexivity|lia]. }
  destruct (optional_fields_sent_iff_set file o Hrange)
    as [_ [Htempo [_ [Hkey _]]]].
  split.
  - exact (Htempo (Js.Num 120) eq_refl).
  - apply (Hkey "C major" eq_refl). discriminate.
Defined.

(** Outside the form's range: a tempo of 0 is set, and no [tempo] entry
    is sent. *)
Example tempo_zero_is_omitted :
  let file := {| Uploader.name := "clip.mp3"; Uploader.type := "audio/mpeg";
                 Uploader.size := 1000%Z |} in
  let o := OptionsForm.handleChange Page.defaultOptions
             (OptionsForm.Tempo (Some (Js.Num 0))) in
  Options.tempo o = Some (Js.Num 0)
  /\ Page.has (Page.build_formData file o) "tempo" = false.
Proof. split; reflexivity. Qed.

(** ** Outcome of the upload ([lib/api.ts]) *)

Lemma status_2xx (z : Z) :
  ((200 <=? z)%Z && (z <? 300)%Z)%bool = true <-> (200 <= z < 300)%Z.
Proof.
  rewrite andb_true_iff, Z.leb_le, Z.ltb_lt. tauto.
Qed.

(** C7, as the code has it.  With a status from 200 to 299 the promise
    resolves with the parsed body when the body parses, and is rejected
    with the parser's error when it does not.  With any other status it
    is rejected with an [Error]: its message is the body's [detail] when
    the body parses to an object whose [detail] is a string; a [detail]
    that is neither a string nor [null] gives the text that [new Error]
    converts it to, or, when that conversion throws, [Upload failed with
    status N]; and the message is [Upload failed with status N] when the
    body does not parse, or parses to a value with no [detail] or a
    [null] one. *)
Theorem upload_settles_by_status :
  forall (JSON_parse : string -> option Api.Json) (xhr : Api.Xhr),
    ((200 <= Api.status xhr < 300)%Z ->
       (forall response, JSON_parse (Api.responseText xhr) = Some response ->
          Api.uploadJobWithProgress JSON_parse (Api.Load xhr) = Api.Resolved response)
       /\ (JSON_parse (Api.responseText xhr) = None ->
           Api.uploadJobWithProgress JSON_parse (Api.Load xhr)
           = Api.Rejected Api.SyntaxError))
    /\ (~ (200 <= Api.status xhr < 300)%Z ->
          (forall members d,
              JSON_parse (Api.responseText xhr) = Some (Api.JObject members) ->
              Api.lookup "detail" members = Some (Api.JString d) ->
              Api.uploadJobWithProgress JSON_parse (Api.Load xhr)
              = Api.Rejected (Api.Error d))
          /\ (forall members v message,
                JSON_parse (Api.responseText xhr) = Some (Api.JObject members) ->
                Api.lookup "detail" members = Some v ->
                v <> Api.JNull ->
                Api.ToString v = Some message ->
                Api.uploadJobWithProgress JSON_parse (Api.Load xhr)
                = Api.Rejected (Api.Error message))
          /\ (forall members v,
                JSON_parse (Api.responseText xhr) = Some (Api.JObject members) ->
                Api.lookup "detail" members = Some v ->
                Api.ToString v = None ->
                Api.uploadJobWithProgress JSON_parse (Api.Load xhr)
                = Api.Rejected
                    (Api.Error ("Upload failed with status "
                                ++ Js.String_of_Z (Api.status xhr))))
          /\ (JSON_parse (Api.responseText xhr) = None ->
                Api.uploadJobWithProgress JSON_parse (Api.Load xhr)
                = Api.Rejected
                    (Api.Error ("Upload failed with status "
                                ++ Js.String_of_Z (Api.status xhr))))
          /\ (forall payload,
                JSON_parse (Api.responseText xhr) = Some payload ->
                (forall members, payload = Api.JObject members ->
                                 Api.lookup "detail" members = None
                                 \/ Api.lookup "detail" members = Some Api.JNull) ->
                Api.uploadJobWithProgress JSON_parse (Api.Load xhr)
                = Api.Rejected
                    (Api.Error ("Upload failed with status "
                                ++ Js.String_of_Z (Api.status xhr))))).
Proof.
  intros JSON_parse xhr. simpl. unfold Api.onload.
  split.
  - intros H2xx. apply status_2xx in H2xx. rewrite H2xx.
    split.
    + intros response Hparse. now rewrite Hparse.
    + intros Hparse. now rewrite Hparse.
  - intros Hnot.
    destruct ((200 <=? Api.status xhr)%Z && (Api.status xhr <? 300)%Z)%bool eqn:E;
      [apply status_2xx in E; contradiction|].
    repeat split.
    + intros members d Hparse Hd. rewrite Hparse. simpl. now rewrite Hd.
    + intros members v message Hparse Hv Hnn Hconv.
      rewrite Hparse. cbn [Api.get_detail]. rewrite Hv.
      unfold Api.detail_or_generic. rewrite Hconv.
      destruct v; try reflexivity. now contradiction Hnn.
    + intros members v Hparse Hv Hconv.
      rewrite Hparse. cbn [Api.get_detail]. rewrite Hv.
      unfold Api.detail_or_generic. rewrite Hconv.
      destruct v; reflexivity.
    + intros Hparse. now rewrite Hparse.
    + intros payload Hparse Hno. rewrite Hparse.
      destruct payload; try reflexivity.
      simpl. destruct (Hno members eq_refl) as [-> | ->]; reflexivity.
Qed.

(** Against C7 as written: a status of 200 with a body that is not JSON
    (here, a proxy's HTML page) does not resolve the promise; it is
    rejected with the parser's error. *)
Lemma upload_2xx_unparseable_rejects :
  let xhr := {| Api.status := 200%Z;
                Api.responseText := "<html><body>Bad Gateway</body></html>" |} in
  Api.JSON_parse (Api.responseText xhr) = None
  /\ Api.uploadJobWithProgress Api.JSON_parse (Api.Load xhr)
     = Api.Rejected Api.SyntaxError.
Proof. split; reflexivity. Qed.

(** A rejection as the server words it; one whose [detail] is a list; an
    error page that is not JSON; an accepted upload; a network failure. *)
Example upload_examples :
  let member k v := Api.quoted k ++ ":" ++ v in
  let too_large := "{" ++ member "detail" (Api.quoted "File too large") ++ "}" in
  let invalid :=
    "{" ++ member "detail" ("[{" ++ member "msg" (Api.quoted "field required") ++ "}]")
        ++ "}" in
  let created := "{" ++ member "job_id" (Api.quoted "job-1") ++ "}" in
  Api.uploadJobWithProgress Api.JSON_parse
    (Api.Load {| Api.status := 413%Z; Api.responseText := too_large |})
  = Api.Rejected (Api.Error "File too large")
  /\ Api.uploadJobWithProgress Api.JSON_parse
       (Api.Load {| Api.status := 422%Z; Api.responseText := invalid |})
     = Api.Rejected (Api.Error "[object Object]")
  /\ Api.uploadJobWithProgress Api.JSON_parse
       (Api.Load {| Api.status := 502%Z; Api.responseText := "<html>Bad Gateway</html>" |})
     = Api.Rejected (Api.Error "Upload failed with status 502")
  /\ Api.uploadJobWithProgress Api.JSON_parse
       (Api.Load {| Api.status := 500%Z; Api.responseText := "null" |})
     = Api.Rejected (Api.Error "Upload failed with status 500")
  /\ Api.uploadJobWithProgress Api.JSON_parse
       (Api.Load {| Api.status := 200%Z; Api.responseText := created |})
     = Api.Resolved (Api.JObject [("job_id", Api.JString "job-1")])
  /\ Api.uploadJobWithProgress Api.JSON_parse Api.NetworkError
     = Api.Rejected (Api.Error "Network error during upload").
Proof. repeat split. Qed.

(** A [detail] that is not a string: a number, a list holding a [null]
    and a list, an object with a key [toString] of its own, a list
    holding such an object, and [null]. *)
Example upload_detail_conversions :
  let member k v := Api.quoted k ++ ":" ++ v in
  let settle d :=
    Api.uploadJobWithProgress Api.JSON_parse
      (Api.Load {| Api.status := 400%Z;
                   Api.responseText := "{" ++ member "detail" d ++ "}" |}) in
  let generic := Api.Rejected (Api.Error "Upload failed with status 400") in
  settle "413" = Api.Rejected (Api.Error "413")
  /\ settle "[null,1,[true]]" = Api.Rejected (Api.Error ",1,true")
  /\ settle ("{" ++ member "toString" "1" ++ "}") = generic
  /\ settle ("[{" ++ member "toString" "null" ++ "}]") = generic
  /\ settle "null" = generic.
Proof. repeat split. Qed.

(** ** The page as a transition system ([page.tsx]) *)

Lemma option_string_eqb_refl (j : option string) :
  Page.option_string_eqb j j = true.
Proof. destruct j; simpl; [apply String.eqb_refl|reflexivity]. Qed.

Lemma commit_jobId_same (j : option string) (e : option Page.Effect) :
  Page.commit_jobId j j e = e.
Proof. unfold Page.commit_jobId. now rewrite option_string_eqb_refl. Qed.

Lemma poll_times_S (n : nat) :
  Page.poll_times (S n)
  = (Page.poll_times n ++ [(Page.POLL_INTERVAL_MS * Z.of_nat (S n))%Z])%list.
Proof.
  unfold Page.poll_times.
  rewrite (seq_S (S n) 0), map_app. reflexivity.
Qed.

Lemma apply_uploader_keeps (s : Page.State) (effects : list Uploader.Effect) :
  Page.jobId (Page.apply_uploader s effects) = Page.jobId s
  /\ Page.isUploading (Page.apply_uploader s effects) = Page.isUploading s
  /\ Page.status (Page.apply_uploader s effects) = Page.status s
  /\ Page.jobResult (Page.apply_uploader s effects) = Page.jobResult s.
Proof.
  revert s.
  induction effects as [|[m|f] rest IH]; intros s; simpl.
  - repeat split.
  - apply IH.
  - destruct (IH (Page.setSelectedFile s (Some f))) as [H1 [H2 [H3 H4]]].
    rewrite H1, H2, H3, H4. repeat split.
Qed.

(** A change of the state cells that leaves [jobId], [isUploading],
    [status] and [jobResult] alone keeps the invariant. *)
Lemma invariant_with_ui (w : Page.World) (s : Page.State) :
  Page.invariant w ->
  Page.jobId s = Page.jobId (Page.ui w) ->
  Page.isUploading s = Page.isUploading (Page.ui w) ->
  Page.status s = Page.status (Page.ui w) ->
  Page.jobResult s = Page.jobResult (Page.ui w) ->
  Page.invariant (Page.with_ui w s).
Proof.
  intros [Hp Hu Hl Hc Hs] Hj Hup Hst Hr.
  unfold Page.with_ui.
  constructor; simpl; rewrite ?Hj, ?Hup, ?Hst, ?Hr, ?commit_jobId_same; auto.
Qed.

Lemma invariant_initial : Page.invariant Page.initial_world.
Proof.
  constructor; simpl; try discriminate; reflexivity.
Qed.

Lemma invariant_effect_start (s : Page.State) (n : nat) (sent : list Page.FormData) :
  Page.isUploading s = false ->
  (exists id, Page.jobId s = Some id) ->
  n = 0 ->
  Page.invariant {| Page.ui := s; Page.effect := Some Page.effect_start;
                    Page.xhr_pending := n; Page.sent := sent |}.
Proof.
  intros Hup Hid ->.
  constructor; simpl.
  - now rewrite Hup.
  - rewrite Hup. discriminate.
  - intros e [= <-] _. exact Hid.
  - intros e [= <-]. discriminate.
  - intros e [= <-]. reflexivity.
Qed.

(** After a clean-up no run of the effect is live. *)
Lemma invariant_cleanup (s : Page.State) (e : option Page.Effect)
    (n : nat) (sent : list Page.FormData) :
  n = (if Page.isUploading s then 1 else 0) ->
  (Page.isUploading s = true ->
   Page.jobId s = None /\ Page.status s = Types.queued /\ Page.jobResult s = None) ->
  (forall e', e = Some e' -> Page.started e' = Page.poll_times (Page.fired e')) ->
  Page.invariant {| Page.ui := s; Page.effect := option_map Page.effect_cleanup e;
                    Page.xhr_pending := n; Page.sent := sent |}.
Proof.
  intros Hn Hu Hs.
  constructor; simpl; auto.
  - intros e' He'. destruct e as [e0|]; [|discriminate].
    injection He' as <-. discriminate.
  - intros e' He'. destruct e as [e0|]; [|discriminate].
    injection He' as <-. reflexivity.
  - intros e' He'. destruct e as [e0|]; [|discriminate].
    injection He' as <-. simpl. now apply Hs.
Qed.

#[local] Arguments Z.mul : simpl never.
#[local] Arguments Z.of_nat : simpl never.

(** Closes the routine fields of the invariant once the event's guards
    have been read off. *)
Ltac invariant_field :=
  simpl; intros;
  repeat match goal with
         | H : Some _ = Some _ |- _ => injection H as H; subst
         end;
  simpl in *;
  try discriminate; try congruence; eauto.

Lemma invariant_step (w w' : Page.World) (ev : Page.Event) :
  Page.invariant w -> Page.step w ev = Some w' -> Page.invariant w'.
Proof.
  intros Hinv Hstep.
  pose proof Hinv as [Hp Hu Hl Hc Hs].
  destruct ev; simpl in Hstep.
  - (* Files *)
    injection Hstep as <-.
    destruct (apply_uploader_keeps (Page.ui w) (Uploader.handleFiles files))
      as [H1 [H2 [H3 H4]]].
    now apply invariant_with_ui.
  - (* ClearFile *)
    destruct (Page.selectedFile (Page.ui w)); [|discriminate].
    destruct (Page.isUploading (Page.ui w)) eqn:E; [discriminate|].
    injection Hstep as <-.
    apply invariant_with_ui; auto.
  - (* Edit *)
    destruct (Page.disableControls (Page.ui w)); [discriminate|].
    injection Hstep as <-.
    now apply invariant_with_ui.
  - (* Submit *)
    unfold Page.submit_disabled, Page.disableControls in Hstep.
    destruct (Page.isUploading (Page.ui w)) eqn:Eup; [discriminate|].
    unfold Page.handleSubmit in Hstep.
    destruct (Page.selectedFile (Page.ui w)) as [file|] eqn:Ef;
      [|rewrite orb_true_r in Hstep; discriminate].
    destruct (Page.job_active (Page.ui w)) eqn:Eact; [discriminate|].
    simpl in Hstep. injection Hstep as <-.
    unfold Page.commit_jobId.
    destruct (Page.option_string_eqb (Page.jobId (Page.ui w)) None) eqn:Ej.
    + constructor; invariant_field.
      destruct (Hl e H H0) as [id Hid].
      rewrite Hid in Ej. discriminate.
    + apply invariant_cleanup; invariant_field.
  - (* UploadProgress *)
    destruct (Page.xhr_pending w) eqn:En; [discriminate|].
    injection Hstep as <-.
    now apply invariant_with_ui.
  - (* UploadResolved *)
    destruct (Page.xhr_pending w) as [|n] eqn:En; [discriminate|].
    injection Hstep as <-.
    destruct (Page.isUploading (Page.ui w)) eqn:Eup; [|discriminate].
    injection Hp as ->.
    destruct (Hu eq_refl) as [Hj [Hst Hr]].
    simpl. rewrite Hj. unfold Page.commit_jobId. simpl.
    destruct (Js.truthy_string (Types.job_id response)).
    + apply invariant_effect_start; invariant_field.
    + apply invariant_cleanup; invariant_field.
  - (* UploadRejected *)
    destruct (Page.xhr_pending w) as [|n] eqn:En; [discriminate|].
    injection Hstep as <-.
    destruct (Page.isUploading (Page.ui w)) eqn:Eup; [|discriminate].
    injection Hp as ->.
    constructor; invariant_field.
  - (* Tick *)
    destruct (Page.effect w) as [e|] eqn:Ee; [|discriminate].
    destruct (Page.interval e) eqn:Ei; [|discriminate].
    injection Hstep as <-.
    constructor; invariant_field.
    rewrite poll_times_S, (Hs e eq_refl). reflexivity.
  - (* FetchResolved *)
    destruct (Page.effect w) as [e|] eqn:Ee; [|discriminate].
    destruct (Page.in_flight e); [discriminate|].
    destruct (Page.cancelled e) eqn:Ecan; injection Hstep as <-.
    + constructor; invariant_field.
      now rewrite (Hc e eq_refl Ecan).
    + destruct (Hl e eq_refl Ecan) as [id Hid].
      assert (Hup : Page.isUploading (Page.ui w) = false).
      { destruct (Page.isUploading (Page.ui w)); [|reflexivity].
        destruct (Hu eq_refl) as [Hj _]. congruence. }
      rewrite Hup in Hp.
      constructor; simpl; rewrite ?Hup; invariant_field.
  - (* FetchRejected *)
    destruct (Page.effect w) as [e|] eqn:Ee; [|discriminate].
    destruct (Page.in_flight e); [discriminate|].
    injection Hstep as <-.
    destruct (Page.cancelled e) eqn:Ecan; constructor; invariant_field.
    now rewrite (Hc e eq_refl Ecan).
  - (* Reset *)
    destruct (Results.hasResults (Page.resultsUrls (Page.ui w))) eqn:Eres;
      [|discriminate].
    injection Hstep as <-.
    assert (Hup : Page.isUploading (Page.ui w) = false).
    { destruct (Page.isUploading (Page.ui w)); [|reflexivity].
      destruct (Hu eq_refl) as [_ [_ Hr]].
      unfold Page.resultsUrls in Eres. rewrite Hr in Eres. discriminate. }
    rewrite Hup in Hp.
    unfold Page.with_ui, Page.commit_jobId. simpl.
    destruct (Page.option_string_eqb (Page.jobId (Page.ui w)) None) eqn:Ej.
    + constructor; simpl; rewrite ?Hup; invariant_field.
      destruct (Hl e H H0) as [id Hid].
      rewrite Hid in Ej. discriminate.
    + apply invariant_cleanup; simpl; rewrite ?Hup; invariant_field.
Qed.

Lemma invariant_run (evs : list Page.Event) :
  forall w w', Page.invariant w -> Page.run w evs = Some w' -> Page.invariant w'.
Proof.
  induction evs as [|ev evs IH]; intros w w' Hinv Hrun; simpl in Hrun.
  - now injection Hrun as <-.
  - destruct (Page.step w ev) as [w1|] eqn:Hstep; [|discriminate].
    apply (IH w1); [|assumption].
    now apply (invariant_step w w1 ev).
Qed.

(** ** The polling loop ([page.tsx], [useEffect]) *)





(** Three polls, the third answered [done]: they began at 0, 1000 and
    2000 ms, and the timer is cleared. *)
Example three_polls_then_done :
  let file := {| Uploader.name := "clip.wav"; Uploader.type := "audio/wav";
                 Uploader.size := 4096%Z |} in
  let no_urls := {| Types.pdf := None; Types.musicxml := None; Types.midi := None |} in
  let answer st p :=
    {| Types.status := st; Types.progress := p; Types.error_text := None;
       Types.urls := no_urls; Types.meta := None |} in
  let w := Page.after
             [Page.Files (Some [file]); Page.Submit;
              Page.UploadResolved {| Types.job_id := "job-1" |};
              Page.FetchResolved (answer Types.queued 0%Z);
              Page.Tick;
              Page.FetchResolved (answer Types.running 50%Z);
              Page.Tick;
              Page.FetchResolved (answer Types.done 100%Z)] in
  option_map Page.started (Page.effect w) = Some [0; 1000; 2000]%Z
  /\ option_map Page.interval (Page.effect w) = Some false
  /\ Page.step w Page.Tick = None
  /\ Page.disableControls (Page.ui w) = false.
Proof. repeat split. Qed.

(** ** One submission at a time ([page.tsx], [OptionsForm.tsx]) *)

Lemma is_terminal_job_active (s : Page.State) :
  Page.job_active s
  = match Page.jobId s with
    | Some _ => negb (Page.is_terminal (Page.status s))
    | None => false
    end.
Proof.
  unfold Page.job_active, Page.is_terminal.
  destruct (Page.jobId s); [|reflexivity].
  now destruct (Page.status s).
Qed.

Lemma disableControls_spec (s : Page.State) :
  Page.disableControls s = true
  <-> (Page.isUploading s = true
       \/ ((exists id, Page.jobId s = Some id)
           /\ Page.is_terminal (Page.status s) = false)).
Proof.
  unfold Page.disableControls.
  rewrite orb_true_iff, is_terminal_job_active.
  split; (intros [H|H]; [now left|right]).
  - destruct (Page.jobId s) as [id|]; [|discriminate].
    split; [now exists id|]. now apply negb_true_iff.
  - destruct H as [[id ->] Ht]. now rewrite Ht.
Qed.

(** The controls' state is a function of [isUploading], [jobId] and
    [status]. *)
Lemma disableControls_ext (s s' : Page.State) :
  Page.isUploading s' = Page.isUploading s ->
  Page.jobId s' = Page.jobId s ->
  Page.status s' = Page.status s ->
  Page.disableControls s' = Page.disableControls s.
Proof.
  unfold Page.disableControls, Page.job_active.
  now intros -> -> ->.
Qed.

Lemma option_controls_disabled (s : Page.State) (b : bool) :
  Page.disableControls s = b ->
  Forall (fun c => OptionsForm.control_disabled c = b) (Page.option_controls s).
Proof.
  intros <-. unfold Page.option_controls, OptionsForm.OptionsForm.
  repeat constructor.
Qed.

(** Which events turn disabled controls into enabled ones. *)
Lemma enabling_step (w w' : Page.World) (ev : Page.Event) :
  Page.invariant w ->
  Page.disableControls (Page.ui w) = true ->
  Page.step w ev = Some w' ->
  (Page.disableControls (Page.ui w') = false
   <-> ((exists m, ev = Page.UploadRejected m)
        \/ (exists r e, ev = Page.FetchResolved r
                        /\ Page.effect w = Some e
                        /\ Page.cancelled e = false
                        /\ Page.is_terminal (Types.status r) = true)
        \/ ev = Page.Reset)).
Proof.
  intros [Hp Hu Hl Hc Hs] Hdis Hstep.
  assert (Hstay : forall s',
             Page.isUploading s' = Page.isUploading (Page.ui w) ->
             Page.jobId s' = Page.jobId (Page.ui w) ->
             Page.status s' = Page.status (Page.ui w) ->
             Page.disableControls s' = false -> False).
  { intros s' H1 H2 H3 H4.
    rewrite (disableControls_ext _ _ H1 H2 H3) in H4. congruence. }
  destruct ev; simpl in Hstep.
  - (* Files *)
    injection Hstep as <-. simpl.
    destruct (apply_uploader_keeps (Page.ui w) (Uploader.handleFiles files))
      as [H1 [H2 [H3 _]]].
    split.
    + intros H. exfalso. now apply (Hstay _ H2 H1 H3).
    + intros [[m H]|[[r [e [H _]]]|H]]; discriminate H.
  - (* ClearFile *)
    destruct (Page.selectedFile (Page.ui w)); [|discriminate].
    destruct (Page.isUploading (Page.ui w)) eqn:Eup; [discriminate|].
    injection Hstep as <-. simpl.
    split.
    + intros H. exfalso.
      now apply (Hstay (Page.setSelectedFile (Page.ui w) None)).
    + intros [[m H]|[[r [e [H _]]]|H]]; discriminate H.
  - (* Edit *)
    rewrite Hdis in Hstep. discriminate.
  - (* Submit *)
    unfold Page.submit_disabled in Hstep. rewrite Hdis in Hstep. discriminate.
  - (* UploadProgress *)
    destruct (Page.xhr_pending w); [discriminate|].
    injection Hstep as <-. simpl.
    split.
    + intros H. exfalso. now apply (Hstay _ eq_refl eq_refl eq_refl).
    + intros [[m H]|[[r [e [H _]]]|H]]; discriminate H.
  - (* UploadResolved *)
    destruct (Page.xhr_pending w) as [|n]; [discriminate|].
    injection Hstep as <-. simpl.
    destruct (Page.isUploading (Page.ui w)) eqn:Eup; [|discriminate].
    destruct (Hu eq_refl) as [_ [Hst _]].
    split.
    + unfold Page.disableControls, Page.job_active. simpl.
      rewrite Hst. discriminate.
    + intros [[m H]|[[r [e [H _]]]|H]]; discriminate H.
  - (* UploadRejected *)
    destruct (Page.xhr_pending w) as [|n]; [discriminate|].
    injection Hstep as <-. simpl.
    destruct (Page.isUploading (Page.ui w)) eqn:Eup; [|discriminate].
    destruct (Hu eq_refl) as [Hj _].
    split.
    + intros _. left. now exists message.
    + intros _. unfold Page.disableControls, Page.job_active. simpl.
      now rewrite Hj.
  - (* Tick *)
    destruct (Page.effect w) as [e|]; [|discriminate].
    destruct (Page.interval e); [|discriminate].
    injection Hstep as <-. simpl.
    split.
    + intros H. congruence.
    + intros [[m H]|[[r [e' [H _]]]|H]]; discriminate H.
  - (* FetchResolved *)
    destruct (Page.effect w) as [e|] eqn:Ee; [|discriminate].
    destruct (Page.in_flight e); [discriminate|].
    destruct (Page.cancelled e) eqn:Ecan; injection Hstep as <-; simpl.
    + split.
      * intros H. congruence.
      * intros [[m H]|[[r [e' [_ [[= <-] [H _]]]]]|H]]; try discriminate H.
        congruence.
    + destruct (Hl e eq_refl Ecan) as [id Hid].
      assert (Hup : Page.isUploading (Page.ui w) = false).
      { destruct (Page.isUploading (Page.ui w)); [|reflexivity].
        destruct (Hu eq_refl) as [Hj _]. congruence. }
      assert (Hobs : Page.disableControls (Page.observe (Page.ui w) response)
                     = negb (Page.is_terminal (Types.status response))).
      { unfold Page.disableControls. rewrite is_terminal_job_active. simpl.
        now rewrite Hup, Hid. }
      rewrite Hobs, negb_false_iff.
      split.
      * intros H. right. left. exists response, e. repeat split; assumption.
      * intros [[m H]|[[r [e' [[= <-] [_ [_ H]]]]]|H]]; try discriminate H.
        assumption.
  - (* FetchRejected *)
    destruct (Page.effect w) as [e|]; [|discriminate].
    destruct (Page.in_flight e); [discriminate|].
    injection Hstep as <-. simpl.
    split.
    + intros H. exfalso. destruct (Page.cancelled e).
      * congruence.
      * now apply (Hstay _ eq_refl eq_refl eq_refl) in H.
    + intros [[m H]|[[r [e' [H _]]]|H]]; discriminate H.
  - (* Reset *)
    destruct (Results.hasResults (Page.resultsUrls (Page.ui w))) eqn:Eres;
      [|discriminate].
    injection Hstep as <-. simpl.
    assert (Hup : Page.isUploading (Page.ui w) = false).
    { destruct (Page.isUploading (Page.ui w)); [|reflexivity].
      destruct (Hu eq_refl) as [_ [_ Hr]].
      unfold Page.resultsUrls in Eres. rewrite Hr in Eres. discriminate. }
    split.
    + intros _. right. right. reflexivity.
    + intros _. unfold Page.disableControls, Page.job_active. simpl.
      now rewrite Hup.
Qed.

(** C10, as the code has it.  In every state the page can reach: at most
    one upload request is pending; the controls are disabled exactly
    while an upload is in progress or a job id exists whose last observed
    status is neither [done] nor [error]; then the submit button and every
    control of the options form are disabled, and neither a submission
    nor an edit can happen; a submission that does happen finds no
    request pending and leaves one; and one event re-enables the
    controls exactly when it is a failed upload, an observed response
    with status [done] or [error], or the reset of the page through
    [New transcription]. *)
Theorem controls_disabled_while_in_flight :
  forall (evs : list Page.Event) (w : Page.World),
    Page.run Page.initial_world evs = Some w ->
    Page.xhr_pending w <= 1
    /\ (Page.disableControls (Page.ui w) = true
        <-> (Page.isUploading (Page.ui w) = true
             \/ ((exists id, Page.jobId (Page.ui w) = Some id)
                 /\ Page.is_terminal (Page.status (Page.ui w)) = false)))
    /\ (Page.disableControls (Page.ui w) = true ->
        Page.submit_disabled (Page.ui w) = true
        /\ Forall (fun c => OptionsForm.control_disabled c = true)
                  (Page.option_controls (Page.ui w))
        /\ Page.step w Page.Submit = None
        /\ forall c, Page.step w (Page.Edit c) = None)
    /\ (Page.disableControls (Page.ui w) = false ->
        Forall (fun c => OptionsForm.control_disabled c = false)
               (Page.option_controls (Page.ui w)))
    /\ (forall w', Page.step w Page.Submit = Some w' ->
                   Page.xhr_pending w = 0
                   /\ Page.xhr_pending w' = 1
                   /\ Page.disableControls (Page.ui w') = true)
    /\ (forall ev w',
          Page.disableControls (Page.ui w) = true ->
          Page.step w ev = Some w' ->
          (Page.disableControls (Page.ui w') = false
           <-> ((exists m, ev = Page.UploadRejected m)
                \/ (exists r e, ev = Page.FetchResolved r
                                /\ Page.effect w = Some e
                                /\ Page.cancelled e = false
                                /\ Page.is_terminal (Types.status r) = true)
                \/ ev = Page.Reset))).
Proof.
  intros evs w Hrun.
  pose proof (invariant_run evs _ _ invariant_initial Hrun) as Hinv.
  split; [|split; [|split; [|split; [|split]]]].
  - destruct Hinv as [Hp _ _ _ _]. rewrite Hp.
    destruct (Page.isUploading (Page.ui w)); lia.
  - apply disableControls_spec.
  - intros Hdis. repeat split.
    + unfold Page.submit_disabled. now rewrite Hdis.
    + now apply option_controls_disabled.
    + simpl. unfold Page.submit_disabled. now rewrite Hdis.
    + intros c. simpl. now rewrite Hdis.
  - intros Hen. now apply option_controls_disabled.
  - intros w' Hstep.
    pose proof (invariant_step _ _ _ Hinv Hstep) as [Hp' _ _ _ _].
    destruct Hinv as [Hp _ _ _ _].
    simpl in Hstep.
    unfold Page.submit_disabled, Page.disableControls in Hstep.
    destruct (Page.isUploading (Page.ui w)) eqn:Eup; [discriminate|].
    unfold Page.handleSubmit in Hstep.
    destruct (Page.selectedFile (Page.ui w)) as [file|];
      [|rewrite orb_true_r in Hstep; discriminate].
    destruct (Page.job_active (Page.ui w)); [discriminate|].
    simpl in Hstep. injection Hstep as <-.
    simpl. rewrite Hp. repeat split.
  - intros ev w' Hdis Hstep. now apply enabling_step.
Qed.

(** While the upload of a chosen file is in progress. *)
Lemma controls_disabled_while_in_flight_witness :
  let file := {| Uploader.name := "clip.wav"; Uploader.type := "audio/wav";
                 Uploader.size := 4096%Z |} in
  let w := Page.after [Page.Files (Some [file]); Page.Submit] in
  Page.run Page.initial_world [Page.Files (Some [file]); Page.Submit] = Some w
  /\ Page.xhr_pending w <= 1
  /\ Page.step w Page.Submit = None.
Proof.
  intros file w.
  assert (Hrun : Page.run Page.initial_world [Page.Files (Some [file]); Page.Submit]
                 = Some w) by reflexivity.
  destruct (controls_disabled_while_in_flight _ w Hrun)
    as [Hle [_ [Hdis _]]].
  split; [exact Hrun|]. split; [exact Hle|].
  now apply Hdis.
Defined.

(** Against C10 as written: a response with status [running] that
    already carries the MIDI link makes the results panel, and its
    [New transcription] button, appear; pressing it re-enables the
    controls although no terminal status was observed and no upload
    failed, and a second request can then be sent. *)
Lemma reset_reenables_controls_mid_job :
  let file := {| Uploader.name := "clip.wav"; Uploader.type := "audio/wav";
                 Uploader.size := 4096%Z |} in
  let partial :=
    {| Types.status := Types.running; Types.progress := 60%Z;
       Types.error_text := None;
       Types.urls := {| Types.pdf := None; Types.musicxml := None;
                        Types.midi := Some "/results/job-1/clip.mid" |};
       Types.meta := None |} in
  let evs := [Page.Files (Some [file]); Page.Submit;
              Page.UploadResolved {| Types.job_id := "job-1" |};
              Page.FetchResolved partial] in
  let w := Page.after evs in
  let w' := Page.after (evs ++ [Page.Reset]) in
  Page.run Page.initial_world evs = Some w
  /\ Page.disableControls (Page.ui w) = true
  /\ Page.jobId (Page.ui w) = Some "job-1"
  /\ Page.status (Page.ui w) = Types.running
  /\ Page.step w Page.Reset = Some w'
  /\ Page.disableControls (Page.ui w') = false
  /\ Page.error (Page.ui w') = None
  /\ option_map (fun w2 => List.length (Page.sent w2))
       (Page.run w' [Page.Files (Some [file]); Page.Submit])
     = Some 2.
Proof. repeat split. Qed.

(** ** What repeated polling observes ([page.tsx], [poll]) *)

(** C1.  The progress values and statuses that the page observes by
    polling one job need not be non-decreasing, nor end in a terminal
    state.  A file is submitted and the upload resolves with the job id
    [job-1]; [poll] is called at time 0 and again when the timer fires
    at 1000 ms, so two status requests are in flight.  The second
    request is answered first, with [done] at progress 100: the page
    shows that and clears the timer.  The answer to the first request,
    [running] at progress 50, arrives afterwards.  [poll] guards its
    updates by [cancelled] only, which the clean-up of the effect sets
    and the clearing of the timer does not, so the late answer is
    observed as well: the observed progress goes from 100 back to 50,
    the last observed status is [running], and since the timer is
    cleared and no request is left in flight nothing is observed after
    it. *)
Theorem observed_progress_regresses_on_late_response :
  let file := {| Uploader.name := "clip.wav"; Uploader.type := "audio/wav";
                 Uploader.size := 4096%Z |} in
  let no_urls := {| Types.pdf := None; Types.musicxml := None; Types.midi := None |} in
  let answer st p :=
    {| Types.status := st; Types.progress := p; Types.error_text := None;
       Types.urls := no_urls; Types.meta := None |} in
  let evs := [Page.Files (Some [file]); Page.Submit;
              Page.UploadResolved {| Types.job_id := "job-1" |};
              Page.Tick] in
  let second := Page.FetchResolved (answer Types.done 100%Z) in
  let first := Page.FetchResolved (answer Types.running 50%Z) in
  let w0 := Page.after evs in
  let w1 := Page.after (evs ++ [second]) in
  let w2 := Page.after (evs ++ [second; first]) in
  Page.run Page.initial_world (evs ++ [second; first]) = Some w2
  /\ option_map Page.started (Page.effect w0) = Some [0; 1000]%Z
  /\ option_map Page.in_flight (Page.effect w0) = Some 2
  /\ Page.step w0 second = Some w1
  /\ (Page.status (Page.ui w1), Page.progress (Page.ui w1)) = (Types.done, 100%Z)
  /\ option_map Page.interval (Page.effect w1) = Some false
  /\ option_map Page.cancelled (Page.effect w1) = Some false
  /\ Page.step w1 first = Some w2
  /\ (Page.status (Page.ui w2), Page.progress (Page.ui w2)) = (Types.running, 50%Z)
  /\ (Page.progress (Page.ui w2) < Page.progress (Page.ui w1))%Z
  /\ Page.status (Page.ui w2) <> Types.done
  /\ Page.status (Page.ui w2) <> Types.error
  /\ Page.step w2 Page.Tick = None
  /\ (forall outcome, Page.step w2 (Page.fetch_event outcome) = None).
Proof.
  cbv zeta.
  repeat match goal with |- _ /\ _ => split end;
    try reflexivity; try discriminate.
  intros outcome. unfold Page.fetch_event.
  destruct (Api.fetchJobStatus outcome); reflexivity.
Qed.

(* ================================================================== *)
(** * Further properties of the client *)

(** ** Editing the options ([OptionsForm.tsx]) *)

(** X1.  Edits of two different options commute, and of two edits of
    the same option the later one alone counts; an edit leaves the
    controls of the other five options as they were. *)
Theorem handleChange_composes :
  (forall o c1 c2,
      OptionsForm.key_of c1 <> OptionsForm.key_of c2 ->
      OptionsForm.handleChange (OptionsForm.handleChange o c1) c2
      = OptionsForm.handleChange (OptionsForm.handleChange o c2) c1)
  /\ (forall o c1 c2,
        OptionsForm.key_of c1 = OptionsForm.key_of c2 ->
        OptionsForm.handleChange (OptionsForm.handleChange o c1) c2
        = OptionsForm.handleChange o c2)
  /\ (forall o c d ctl,
        In ctl (OptionsForm.OptionsForm (OptionsForm.handleChange o c) d) ->
        OptionsForm.control_key ctl <> OptionsForm.key_of c ->
        In ctl (OptionsForm.OptionsForm o d)).
Proof.
  split; [|split].
  - intros o c1 c2 Hne.
    destruct c1, c2; simpl in *; try reflexivity; now contradiction Hne.
  - intros o c1 c2 Heq.
    destruct c1, c2; simpl in *; try reflexivity; discriminate Heq.
  - intros o c d ctl Hin Hne.
    unfold OptionsForm.OptionsForm in *.
    destruct c; simpl in *;
      repeat (destruct Hin as [<-|Hin];
              [simpl in Hne; try (now contradiction Hne); tauto|]);
      contradiction.
Qed.

(** ** The request ([page.tsx], [handleSubmit]) *)

(** X2.  Whatever the file and the options, the request has six to
    eight entries, no name twice, in the order file, clef, instrument,
    tempo, force_key, detect_time_signature, quantization,
    loose_quantization (tempo and force_key only when sent); the two
    flags are sent as the texts [true] and [false]. *)
Theorem build_formData_shape :
  forall (file : Uploader.File) (o : Options.t),
    NoDup (map fst (Page.build_formData file o))
    /\ 6 <= List.length (Page.build_formData file o) <= 8
    /\ map fst (Page.build_formData file o)
       = (["file"; "clef"; "instrument"]
          ++ (if Page.has (Page.build_formData file o) "tempo" then ["tempo"] else [])
          ++ (if Page.has (Page.build_formData file o) "force_key"
              then ["force_key"] else [])
          ++ ["detect_time_signature"; "quantization"; "loose_quantization"])%list
    /\ Page.getAll (Page.build_formData file o) "clef" = [Page.Text (Options.clef o)]
    /\ Page.getAll (Page.build_formData file o) "quantization"
       = [Page.Text (Options.quantization o)]
    /\ Page.getAll (Page.build_formData file o) "detect_time_signature"
       = [Page.Text (if Options.detect_time_signature o then "true" else "false")]
    /\ Page.getAll (Page.build_formData file o) "loose_quantization"
       = [Page.Text (if Options.loose_quantization o then "true" else "false")].
Proof.
  intros file o.
  rewrite build_formData_has_tempo, build_formData_has_force_key.
  unfold Page.build_formData, Page.append, Page.getAll.
  destruct (Options.tempo o) as [n|];
    [destruct (Js.truthy_number n)|];
    (destruct (Options.force_key o) as [k|];
     [destruct (Js.truthy_string k)|]);
    simpl;
    (split; [repeat constructor; simpl; intuition discriminate|]);
    (split; [lia|]);
    repeat split.
Qed.

(** X3.  A submission that the form lets through finds a selected file
    and sends exactly one request, built from that file and the options
    as they stand; it turns the page into its uploading state (job id,
    results and error cleared, status queued, progress 0) and keeps the
    selection and the options.  So the [Please select an audio file
    first.] branch of [handleSubmit] is never taken through the form. *)
Theorem submit_sends_current_selection :
  forall (w w' : Page.World),
    Page.step w Page.Submit = Some w' ->
    exists file,
      Page.selectedFile (Page.ui w) = Some file
      /\ Page.sent w' = (Page.sent w ++ [Page.build_formData file (Page.options (Page.ui w))])%list
      /\ Page.xhr_pending w' = S (Page.xhr_pending w)
      /\ Page.ui w'
         = {| Page.selectedFile := Some file;
              Page.options := Page.options (Page.ui w);
              Page.jobId := None;
              Page.status := Types.queued;
              Page.progress := 0%Z;
              Page.eta := None;
              Page.isUploading := true;
              Page.error := None;
              Page.statusDescription := Some "Uploading audio…";
              Page.jobResult := None |}.
Proof.
  intros w w' Hstep. simpl in Hstep.
  unfold Page.submit_disabled in Hstep.
  destruct (Page.disableControls (Page.ui w)); [discriminate|].
  unfold Page.handleSubmit in Hstep.
  destruct (Page.selectedFile (Page.ui w)) as [file|] eqn:Ef; [|discriminate].
  simpl in Hstep. injection Hstep as <-.
  exists file. simpl. unfold Page.begin_upload. rewrite Ef. repeat split.
Qed.

(** A file is chosen, then the form is submitted. *)
Lemma submit_sends_current_selection_witness :
  let file := {| Uploader.name := "clip.wav"; Uploader.type := "audio/wav";
                 Uploader.size := 4096%Z |} in
  let w := Page.after [Page.Files (Some [file])] in
  let w' := Page.after [Page.Files (Some [file]); Page.Submit] in
  Page.step w Page.Submit = Some w'
  /\ Page.sent w' = [Page.build_formData file Page.defaultOptions].
Proof.
  intros file w w'.
  assert (Hstep : Page.step w Page.Submit = Some w') by reflexivity.
  destruct (submit_sends_current_selection w w' Hstep) as [f [Hf [Hsent _]]].
  split; [exact Hstep|].
  injection Hf as <-. exact Hsent.
Defined.

(** ** Outcomes of the two requests ([lib/api.ts]) *)

(** X4.  The status class alone decides how the upload's promise
    settles: outside 200..299 it is always rejected with an [Error],
    never resolved, whatever the body (a well-formed job response
    included); within 200..299 it is never rejected with an [Error]. *)
Theorem upload_outcome_by_status_class :
  forall (JSON_parse : string -> option Api.Json) (xhr : Api.Xhr),
    (~ (200 <= Api.status xhr < 300)%Z ->
     exists message,
       Api.uploadJobWithProgress JSON_parse (Api.Load xhr)
       = Api.Rejected (Api.Error message))
    /\ ((200 <= Api.status xhr < 300)%Z ->
        forall message,
          Api.uploadJobWithProgress JSON_parse (Api.Load xhr)
          <> Api.Rejected (Api.Error message)).
Proof.
  intros JSON_parse xhr. simpl. unfold Api.onload.
  split.
  - intros Hnot.
    destruct ((200 <=? Api.status xhr)%Z && (Api.status xhr <? 300)%Z)%bool eqn:E;
      [apply status_2xx in E; contradiction|].
    destruct (JSON_parse (Api.responseText xhr)) as [payload|]; [|eauto].
    destruct (Api.get_detail payload); eauto.
  - intros H2xx message. apply status_2xx in H2xx. rewrite H2xx.
    destruct (JSON_parse (Api.responseText xhr)); discriminate.
Qed.

(** ** What the page sends ([page.tsx], [Uploader.tsx], [OptionsForm.tsx]) *)

Lemma build_formData_getAll_file (file : Uploader.File) (o : Options.t) :
  Page.getAll (Page.build_formData file o) "file" = [Page.Blob file].
Proof.
  unfold Page.build_formData.
  destruct (Options.tempo o) as [n|];
    [destruct (Js.truthy_number n)|];
    (destruct (Options.force_key o) as [k|];
     [destruct (Js.truthy_string k)|]);
    repeat (rewrite getAll_append; simpl); reflexivity.
Qed.

Lemma build_formData_getAll_instrument (file : Uploader.File) (o : Options.t) :
  Page.getAll (Page.build_formData file o) "instrument"
  = [Page.Text (Options.instrument o)].
Proof.
  unfold Page.build_formData.
  destruct (Options.tempo o) as [n|];
    [destruct (Js.truthy_number n)|];
    (destruct (Options.force_key o) as [k|];
     [destruct (Js.truthy_string k)|]);
    repeat (rewrite getAll_append; simpl); reflexivity.
Qed.

Lemma handleChange_instrument (o : Options.t) (c : OptionsForm.Change) :
  Options.instrument (OptionsForm.handleChange o c) = Options.instrument o.
Proof. destruct c; reflexivity. Qed.

(** What [handleFiles] does to the selection and to the options. *)
Lemma apply_uploader_handleFiles (s : Page.State) (files : option (list Uploader.File)) :
  Page.options (Page.apply_uploader s (Uploader.handleFiles files)) = Page.options s
  /\ (Page.selectedFile (Page.apply_uploader s (Uploader.handleFiles files))
      = Page.selectedFile s
      \/ exists f,
           Page.selectedFile (Page.apply_uploader s (Uploader.handleFiles files)) = Some f
           /\ Uploader.isAllowedType f || Uploader.hasAllowedExtension f = true).
Proof.
  destruct files as [[|candidate rest]|]; simpl; try (split; [reflexivity|now left]).
  destruct (Uploader.isAllowedType candidate || Uploader.hasAllowedExtension candidate)
    eqn:E; simpl.
  - split; [reflexivity|]. right. now exists candidate.
  - split; [reflexivity|now left].
Qed.

(** The selection is a supported file, the instrument is [piano], and
    every request sent was built from a supported file and [piano]. *)
Lemma requests_invariant_step (w w' : Page.World) (ev : Page.Event) :
  Page.step w ev = Some w' ->
  ((forall f, Page.selectedFile (Page.ui w) = Some f ->
              Uploader.isAllowedType f || Uploader.hasAllowedExtension f = true)
   /\ Options.instrument (Page.options (Page.ui w)) = "piano"
   /\ Forall (fun fd =>
                exists f o,
                  fd = Page.build_formData f o
                  /\ Uploader.isAllowedType f || Uploader.hasAllowedExtension f = true
                  /\ Options.instrument o = "piano")
             (Page.sent w)) ->
  ((forall f, Page.selectedFile (Page.ui w') = Some f ->
              Uploader.isAllowedType f || Uploader.hasAllowedExtension f = true)
   /\ Options.instrument (Page.options (Page.ui w')) = "piano"
   /\ Forall (fun fd =>
                exists f o,
                  fd = Page.build_formData f o
                  /\ Uploader.isAllowedType f || Uploader.hasAllowedExtension f = true
                  /\ Options.instrument o = "piano")
             (Page.sent w')).
Proof.
  intros Hstep [Hsel [Hins Hsent]].
  destruct ev; simpl in Hstep.
  - injection Hstep as <-. simpl.
    destruct (apply_uploader_handleFiles (Page.ui w) files) as [Ho [Hs|[f [Hs Hf]]]];
      rewrite Ho, Hs; repeat split; try assumption.
    intros f' [= <-]. exact Hf.
  - destruct (Page.selectedFile (Page.ui w)); [|discriminate].
    destruct (Page.isUploading (Page.ui w)); [discriminate|].
    injection Hstep as <-. simpl. repeat split; try assumption. discriminate.
  - destruct (Page.disableControls (Page.ui w)); [discriminate|].
    injection Hstep as <-. simpl. repeat split; try assumption.
    now rewrite handleChange_instrument.
  - destruct (Page.submit_disabled (Page.ui w)); [discriminate|].
    unfold Page.handleSubmit in Hstep.
    destruct (Page.selectedFile (Page.ui w)) as [file|] eqn:Ef;
      simpl in Hstep; injection Hstep as <-; simpl.
    + rewrite Ef. repeat split; try assumption.
      apply Forall_app. split; [assumption|].
      constructor; [|constructor].
      exists file, (Page.options (Page.ui w)). repeat split; auto.
    + rewrite Ef. repeat split; assumption.
  - destruct (Page.xhr_pending w); [discriminate|].
    injection Hstep as <-. simpl. repeat split; assumption.
  - destruct (Page.xhr_pending w); [discriminate|].
    injection Hstep as <-. simpl. repeat split; assumption.
  - destruct (Page.xhr_pending w); [discriminate|].
    injection Hstep as <-. simpl. repeat split; assumption.
  - destruct (Page.effect w) as [e|]; [|discriminate].
    destruct (Page.interval e); [|discriminate].
    injection Hstep as <-. simpl. repeat split; assumption.
  - destruct (Page.effect w) as [e|]; [|discriminate].
    destruct (Page.in_flight e); [discriminate|].
    destruct (Page.cancelled e); injection Hstep as <-; simpl;
      repeat split; assumption.
  - destruct (Page.effect w) as [e|]; [|discriminate].
    destruct (Page.in_flight e); [discriminate|].
    injection Hstep as <-. simpl.
    destruct (Page.cancelled e); simpl; repeat split; assumption.
  - destruct (Results.hasResults (Page.resultsUrls (Page.ui w))); [|discriminate].
    injection Hstep as <-. simpl. repeat split; try assumption. discriminate.
Qed.

Lemma requests_invariant (evs : list Page.Event) (w : Page.World) :
  Page.run Page.initial_world evs = Some w ->
  (forall f, Page.selectedFile (Page.ui w) = Some f ->
             Uploader.isAllowedType f || Uploader.hasAllowedExtension f = true)
  /\ Options.instrument (Page.options (Page.ui w)) = "piano"
  /\ Forall (fun fd =>
               exists f o,
                 fd = Page.build_formData f o
                 /\ Uploader.isAllowedType f || Uploader.hasAllowedExtension f = true
                 /\ Options.instrument o = "piano")
            (Page.sent w).
Proof.
  assert (Hgen : forall evs w0 w,
             Page.run w0 evs = Some w ->
             ((forall f, Page.selectedFile (Page.ui w0) = Some f ->
                         Uploader.isAllowedType f || Uploader.hasAllowedExtension f = true)
              /\ Options.instrument (Page.options (Page.ui w0)) = "piano"
              /\ Forall (fun fd =>
                           exists f o,
                             fd = Page.build_formData f o
                             /\ Uploader.isAllowedType f || Uploader.hasAllowedExtension f
                                = true
                             /\ Options.instrument o = "piano")
                        (Page.sent w0)) ->
             ((forall f, Page.selectedFile (Page.ui w) = Some f ->
                         Uploader.isAllowedType f || Uploader.hasAllowedExtension f = true)
              /\ Options.instrument (Page.options (Page.ui w)) = "piano"
              /\ Forall (fun fd =>
                           exists f o,
                             fd = Page.build_formData f o
                             /\ Uploader.isAllowedType f || Uploader.hasAllowedExtension f
                                = true
                             /\ Options.instrument o = "piano")
                        (Page.sent w))).
  { clear. induction evs as [|ev evs IH]; intros w0 w Hrun H0; simpl in Hrun.
    - now injection Hrun as <-.
    - destruct (Page.step w0 ev) as [w1|] eqn:Hstep; [|discriminate].
      apply (IH w1 w Hrun).
      now apply (requests_invariant_step w0 w1 ev). }
  intros Hrun. apply (Hgen evs Page.initial_world w Hrun).
  simpl. repeat split; [discriminate|constructor].
Qed.

(** X5.  Every request the page ever sends carries, as its one [file]
    entry, a file that passed the type-or-extension check of the
    uploader: no sequence of drops, edits, submissions and resets gets
    an unsupported file sent. *)
Theorem only_supported_files_are_sent :
  forall (evs : list Page.Event) (w : Page.World),
    Page.run Page.initial_world evs = Some w ->
    forall fd, In fd (Page.sent w) ->
      exists f,
        Page.getAll fd "file" = [Page.Blob f]
        /\ (In (Uploader.type f) Uploader.ACCEPTED_TYPES
            \/ exists ext, In ext Uploader.ACCEPTED_EXTENSIONS
                           /\ exists p, Js.toLowerCase (Uploader.name f) = p ++ ext).
Proof.
  intros evs w Hrun fd Hin.
  destruct (requests_invariant evs w Hrun) as [_ [_ Hsent]].
  rewrite Forall_forall in Hsent.
  destruct (Hsent fd Hin) as [f [o [-> [Hf _]]]].
  exists f. split; [apply build_formData_getAll_file|].
  now apply acceptance_spec.
Qed.

(** X6.  The instrument is [piano] in every state the page can reach
    and in every request it sends: no control of the form edits it, and
    a reset restores it. *)
Theorem instrument_is_always_piano :
  forall (evs : list Page.Event) (w : Page.World),
    Page.run Page.initial_world evs = Some w ->
    Options.instrument (Page.options (Page.ui w)) = "piano"
    /\ forall fd, In fd (Page.sent w) ->
         Page.getAll fd "instrument" = [Page.Text "piano"].
Proof.
  intros evs w Hrun.
  destruct (requests_invariant evs w Hrun) as [_ [Hins Hsent]].
  split; [assumption|].
  intros fd Hin. rewrite Forall_forall in Hsent.
  destruct (Hsent fd Hin) as [f [o [-> [_ Ho]]]].
  now rewrite build_formData_getAll_instrument, Ho.
Qed.

Lemma only_supported_files_are_sent_witness :
  let wav := {| Uploader.name := "clip.wav"; Uploader.type := EmptyString;
                Uploader.size := 4096%Z |} in
  let fd := Page.build_formData wav Page.defaultOptions in
  exists f,
    Page.getAll fd "file" = [Page.Blob f]
    /\ (In (Uploader.type f) Uploader.ACCEPTED_TYPES
        \/ exists ext, In ext Uploader.ACCEPTED_EXTENSIONS
                       /\ exists p, Js.toLowerCase (Uploader.name f) = p ++ ext).
Proof.
  intros wav fd.
  apply (only_supported_files_are_sent
           [Page.Files (Some [wav]); Page.Submit]
           (Page.after [Page.Files (Some [wav]); Page.Submit])
           eq_refl fd).
  simpl. left. reflexivity.
Defined.

Lemma instrument_is_always_piano_witness :
  let wav := {| Uploader.name := "clip.wav"; Uploader.type := EmptyString;
                Uploader.size := 4096%Z |} in
  let w := Page.after [Page.Files (Some [wav]); Page.Edit (OptionsForm.Clef "bass");
                       Page.Submit] in
  Options.instrument (Page.options (Page.ui w)) = "piano".
Proof.
  intros wav w.
  exact (proj1 (instrument_is_always_piano
                  [Page.Files (Some [wav]); Page.Edit (OptionsForm.Clef "bass");
                   Page.Submit] w eq_refl)).
Defined.

(** ** Polling and the page's state ([page.tsx], [lib/api.ts]) *)

(** Without a job id no run of the effect is live and no timer is
    registered. *)
Lemma no_timer_without_job (w : Page.World) :
  Page.invariant w ->
  Page.jobId (Page.ui w) = None ->
  (forall e, Page.effect w = Some e ->
             Page.cancelled e = true /\ Page.interval e = false)
  /\ Page.step w Page.Tick = None.
Proof.
  intros [_ _ Hl Hc _] Hjob.
  assert (Hdead : forall e, Page.effect w = Some e ->
                            Page.cancelled e = true /\ Page.interval e = false).
  { intros e He. destruct (Page.cancelled e) eqn:Ecan.
    - split; [reflexivity|]. now apply Hc.
    - destruct (Hl e He Ecan) as [id Hid]. congruence. }
  split; [exact Hdead|].
  simpl. destruct (Page.effect w) as [e|]; [|reflexivity].
  destruct (Hdead e eq_refl) as [_ Hint]. now rewrite Hint.
Qed.

(** X7.  While the page holds no job id, whatever still settles of an
    earlier job's status requests changes nothing on the page (neither
    status, progress, results nor error), and no timer can fire. *)
Theorem stale_polls_are_ignored :
  forall (evs : list Page.Event) (w : Page.World),
    Page.run Page.initial_world evs = Some w ->
    Page.jobId (Page.ui w) = None ->
    (forall outcome w',
        Page.step w (Page.fetch_event outcome) = Some w' -> Page.ui w' = Page.ui w)
    /\ Page.step w Page.Tick = None.
Proof.
  intros evs w Hrun Hjob.
  pose proof (invariant_run evs _ _ invariant_initial Hrun) as Hinv.
  destruct (no_timer_without_job w Hinv Hjob) as [Hdead Htick].
  split; [|exact Htick].
  intros outcome w' Hstep. unfold Page.fetch_event in Hstep.
  destruct (Api.fetchJobStatus outcome) as [body|message]; simpl in Hstep;
    destruct (Page.effect w) as [e|]; try discriminate;
    destruct (Hdead e eq_refl) as [Hcan _];
    destruct (Page.in_flight e); try discriminate;
    rewrite Hcan in Hstep; now injection Hstep as <-.
Qed.

(** A job is reset while one of its status requests is in flight. *)
Lemma stale_polls_are_ignored_witness :
  let file := {| Uploader.name := "clip.wav"; Uploader.type := "audio/wav";
                 Uploader.size := 4096%Z |} in
  let partial :=
    {| Types.status := Types.running; Types.progress := 60%Z;
       Types.error_text := None;
       Types.urls := {| Types.pdf := None; Types.musicxml := None;
                        Types.midi := Some "/results/job-1/clip.mid" |};
       Types.meta := None |} in
  let evs := [Page.Files (Some [file]); Page.Submit;
              Page.UploadResolved {| Types.job_id := "job-1" |};
              Page.FetchResolved partial; Page.Tick; Page.Reset] in
  Page.run Page.initial_world evs = Some (Page.after evs)
  /\ Page.step (Page.after evs) Page.Tick = None.
Proof.
  intros file partial evs.
  assert (Hrun : Page.run Page.initial_world evs = Some (Page.after evs))
    by reflexivity.
  split; [exact Hrun|].
  exact (proj2 (stale_polls_are_ignored evs (Page.after evs) Hrun eq_refl)).
Defined.

(** X8.  [New transcription] puts every state cell back to its initial
    value, the upload flag included (no upload can be in progress when
    the button is there), hides the results, leaves no request pending
    and stops the polling; the requests already sent stay sent. *)
Theorem reset_restores_initial_state :
  forall (evs : list Page.Event) (w w' : Page.World),
    Page.run Page.initial_world evs = Some w ->
    Page.step w Page.Reset = Some w' ->
    Page.ui w' = Page.initial
    /\ Page.results_downloads (Page.ui w') = None
    /\ Page.xhr_pending w' = 0
    /\ Page.step w' Page.Tick = None
    /\ Page.sent w' = Page.sent w.
Proof.
  intros evs w w' Hrun Hstep.
  pose proof (invariant_run evs _ _ invariant_initial Hrun) as Hinv.
  pose proof (invariant_step _ _ _ Hinv Hstep) as Hinv'.
  destruct Hinv as [Hp Hu _ _ _].
  simpl in Hstep.
  destruct (Results.hasResults (Page.resultsUrls (Page.ui w))) eqn:Eres;
    [|discriminate].
  assert (Hup : Page.isUploading (Page.ui w) = false).
  { destruct (Page.isUploading (Page.ui w)); [|reflexivity].
    destruct (Hu eq_refl) as [_ [_ Hr]].
    unfold Page.resultsUrls in Eres. rewrite Hr in Eres. discriminate. }
  injection Hstep as <-.
  assert (Hui : Page.ui (Page.with_ui w (Page.resetAll (Page.ui w))) = Page.initial).
  { simpl. unfold Page.resetAll, Page.initial. now rewrite Hup. }
  split; [exact Hui|]. split; [now rewrite Hui|].
  split; [simpl; now rewrite Hp, Hup|].
  split; [|reflexivity].
  apply no_timer_without_job; [exact Hinv'|now rewrite Hui].
Qed.

Lemma reset_restores_initial_state_witness :
  let file := {| Uploader.name := "clip.wav"; Uploader.type := "audio/wav";
                 Uploader.size := 4096%Z |} in
  let finished :=
    {| Types.status := Types.done; Types.progress := 100%Z;
       Types.error_text := None;
       Types.urls := {| Types.pdf := Some "/results/job-1/clip.pdf";
                        Types.musicxml := Some "/results/job-1/clip.musicxml";
                        Types.midi := Some "/results/job-1/clip.mid" |};
       Types.meta := None |} in
  let evs := [Page.Files (Some [file]); Page.Submit;
              Page.UploadResolved {| Types.job_id := "job-1" |};
              Page.FetchResolved finished] in
  Page.step (Page.after evs) Page.Reset = Some (Page.after (evs ++ [Page.Reset]))
  /\ Page.ui (Page.after (evs ++ [Page.Reset])) = Page.initial.
Proof.
  intros file finished evs.
  assert (Hstep : Page.step (Page.after evs) Page.Reset
                  = Some (Page.after (evs ++ [Page.Reset]))) by reflexivity.
  split; [exact Hstep|].
  exact (proj1 (reset_restores_initial_state evs _ _ eq_refl Hstep)).
Defined.

(** X9.  While an upload is in progress the page holds no job id, shows
    the status queued, shows no results and offers no reset; exactly
    one request is pending, the form can neither be submitted nor
    edited, and the file chosen cannot be cleared. *)
Theorem during_upload :
  forall (evs : list Page.Event) (w : Page.World),
    Page.run Page.initial_world evs = Some w ->
    Page.isUploading (Page.ui w) = true ->
    Page.jobId (Page.ui w) = None
    /\ Page.status (Page.ui w) = Types.queued
    /\ Page.results_downloads (Page.ui w) = None
    /\ Page.xhr_pending w = 1
    /\ Page.step w Page.Reset = None
    /\ Page.step w Page.Submit = None
    /\ Page.step w Page.ClearFile = None
    /\ (forall c, Page.step w (Page.Edit c) = None).
Proof.
  intros evs w Hrun Hup.
  pose proof (invariant_run evs _ _ invariant_initial Hrun) as [Hp Hu _ _ _].
  destruct (Hu Hup) as [Hj [Hst Hr]].
  rewrite Hup in Hp.
  assert (Hres : Results.hasResults (Page.resultsUrls (Page.ui w)) = false).
  { unfold Page.resultsUrls. now rewrite Hr. }
  repeat split; try assumption.
  - unfold Page.results_downloads, Results.downloads. now rewrite Hres.
  - simpl. now rewrite Hres.
  - simpl. unfold Page.submit_disabled, Page.disableControls. now rewrite Hup.
  - simpl. rewrite Hup. now destruct (Page.selectedFile (Page.ui w)).
  - intros c. simpl. unfold Page.disableControls. now rewrite Hup.
Qed.

Lemma during_upload_witness :
  let file := {| Uploader.name := "clip.wav"; Uploader.type := "audio/wav";
                 Uploader.size := 4096%Z |} in
  let evs := [Page.Files (Some [file]); Page.Submit; Page.UploadProgress 40%Z None] in
  Page.progress (Page.ui (Page.after evs)) = 40%Z
  /\ Page.xhr_pending (Page.after evs) = 1.
Proof.
  intros file evs. split; [reflexivity|].
  destruct (during_upload evs (Page.after evs) eq_refl eq_refl)
    as [_ [_ [_ [Hp _]]]].
  exact Hp.
Defined.

(** X10.  A status request that fails because the response is not [ok]
    shows [Failed to fetch job status: ] and the status text as the
    page's error, and touches nothing else: job id, status, progress,
    description and results stay, and so does the timer, so polling
    goes on. *)
Theorem failed_poll_surfaces_and_polling_goes_on :
  forall (w : Page.World) (e : Page.Effect) (response : Api.Response),
    Page.effect w = Some e ->
    Page.cancelled e = false ->
    Page.in_flight e <> 0 ->
    Api.ok response = false ->
    exists w' e',
      Page.step w (Page.fetch_event (Api.Responded response)) = Some w'
      /\ Page.error (Page.ui w')
         = Some ("Failed to fetch job status: " ++ Api.statusText response)
      /\ Page.jobId (Page.ui w') = Page.jobId (Page.ui w)
      /\ Page.status (Page.ui w') = Page.status (Page.ui w)
      /\ Page.progress (Page.ui w') = Page.progress (Page.ui w)
      /\ Page.statusDescription (Page.ui w') = Page.statusDescription (Page.ui w)
      /\ Page.jobResult (Page.ui w') = Page.jobResult (Page.ui w)
      /\ Page.effect w' = Some e'
      /\ Page.interval e' = Page.interval e
      /\ Page.started e' = Page.started e.
Proof.
  intros w e response He Hlive Hfl Hok.
  unfold Page.fetch_event. simpl. rewrite Hok. simpl. rewrite He.
  destruct (Page.in_flight e) as [|n] eqn:En; [now contradiction Hfl|].
  rewrite Hlive.
  do 2 eexists. split; [reflexivity|].
  cbn [Page.ui Page.effect Page.setError Page.error Page.jobId Page.status
       Page.progress Page.statusDescription Page.jobResult
       Page.effect_settle Page.interval Page.started negb].
  repeat split. apply andb_true_r.
Qed.

Lemma failed_poll_surfaces_and_polling_goes_on_witness :
  let file := {| Uploader.name := "clip.wav"; Uploader.type := "audio/wav";
                 Uploader.size := 4096%Z |} in
  let w := Page.after [Page.Files (Some [file]); Page.Submit;
                       Page.UploadResolved {| Types.job_id := "job-1" |}] in
  let response := {| Api.ok := false; Api.statusText := "Not Found";
                     Api.json := inr "Unexpected token" |} in
  exists w',
    Page.step w (Page.fetch_event (Api.Responded response)) = Some w'
    /\ Page.error (Page.ui w') = Some "Failed to fetch job status: Not Found"
    /\ Page.step w' Page.Tick <> None.
Proof.
  intros file w response.
  destruct (failed_poll_surfaces_and_polling_goes_on w Page.effect_start response
              eq_refl eq_refl (fun H => O_S _ (eq_sym H)) eq_refl)
    as [w' [e' [Hstep [Herr [_ [_ [_ [_ [_ [He' [Hint _]]]]]]]]]]].
  exists w'. split; [exact Hstep|]. split; [exact Herr|].
  simpl. rewrite He', Hint. discriminate.
Defined.

(** X11.  A response that [poll] observes never clears the page's
    error: along any sequence of timer firings and settled status
    requests an error that is shown stays shown, and it stays the very
    same message as long as no request fails. *)
Theorem polling_never_clears_error :
  forall (evs : list Page.Event) (w w' : Page.World),
    forallb Page.poll_event evs = true ->
    Page.run w evs = Some w' ->
    (Page.error (Page.ui w) <> None -> Page.error (Page.ui w') <> None)
    /\ (forallb (fun ev => match ev with Page.FetchRejected _ => false | _ => true end) evs
        = true ->
        Page.error (Page.ui w') = Page.error (Page.ui w)).
Proof.
  induction evs as [|ev evs IH]; intros w w' Hpoll Hrun; simpl in *.
  - injection Hrun as <-. split; auto.
  - apply andb_true_iff in Hpoll as [Hev Hpoll].
    destruct (Page.step w ev) as [w1|] eqn:Hstep; [|discriminate].
    destruct (IH w1 w' Hpoll Hrun) as [IH1 IH2].
    destruct ev; try discriminate Hev; simpl in Hstep;
      destruct (Page.effect w) as [e|]; try discriminate.
    + destruct (Page.interval e); [|discriminate].
      injection Hstep as <-. simpl in *. split; auto.
    + destruct (Page.in_flight e); [discriminate|].
      destruct (Page.cancelled e); injection Hstep as <-; simpl in *; split; auto.
    + destruct (Page.in_flight e); [discriminate|].
      injection Hstep as <-. simpl in *.
      split; [|discriminate].
      intros Herr. apply IH1.
      destruct (Page.cancelled e); simpl; [assumption|discriminate].
Qed.

Lemma polling_never_clears_error_witness :
  let file := {| Uploader.name := "clip.wav"; Uploader.type := "audio/wav";
                 Uploader.size := 4096%Z |} in
  let finished :=
    {| Types.status := Types.done; Types.progress := 100%Z;
       Types.error_text := None;
       Types.urls := {| Types.pdf := None; Types.musicxml := None;
                        Types.midi := Some "/results/job-1/clip.mid" |};
       Types.meta := None |} in
  let w := Page.after [Page.Files (Some [file]); Page.Submit;
                       Page.UploadResolved {| Types.job_id := "job-1" |};
                       Page.FetchRejected "Failed to fetch"] in
  let w' := Page.after [Page.Files (Some [file]); Page.Submit;
                        Page.UploadResolved {| Types.job_id := "job-1" |};
                        Page.FetchRejected "Failed to fetch";
                        Page.Tick; Page.FetchResolved finished] in
  Page.status (Page.ui w') = Types.done
  /\ Page.error (Page.ui w') = Some "Failed to fetch".
Proof.
  intros file finished w w'.
  split; [reflexivity|].
  destruct (polling_never_clears_error
              [Page.Tick; Page.FetchResolved finished] w w' eq_refl eq_refl)
    as [_ Hsame].
  exact (Hsame eq_refl).
Defined.

(** X12.  After a response with status [done] or [error] has cleared
    the timer, a response to an earlier request that arrives late and
    says [queued] or [running] is still observed: the page goes back to
    that status, its controls are disabled again, and with the last
    request settled neither the timer nor any status request can bring
    a further update. *)
Theorem late_response_after_terminal_sticks :
  forall (evs : list Page.Event) (w : Page.World) (e : Page.Effect)
         (r : Types.JobStatusResponse),
    Page.run Page.initial_world evs = Some w ->
    Page.effect w = Some e ->
    Page.cancelled e = false ->
    Page.interval e = false ->
    Page.in_flight e = 1 ->
    Page.is_terminal (Types.status r) = false ->
    exists w',
      Page.step w (Page.FetchResolved r) = Some w'
      /\ Page.status (Page.ui w') = Types.status r
      /\ Page.disableControls (Page.ui w') = true
      /\ Page.step w' Page.Submit = None
      /\ Page.step w' Page.Tick = None
      /\ (forall outcome, Page.step w' (Page.fetch_event outcome) = None).
Proof.
  intros evs w e r Hrun He Hlive Hint Hfl Hnt.
  pose proof (invariant_run evs _ _ invariant_initial Hrun) as [_ Hu Hl _ _].
  destruct (Hl e He Hlive) as [id Hid].
  assert (Hup : Page.isUploading (Page.ui w) = false).
  { destruct (Page.isUploading (Page.ui w)); [|reflexivity].
    destruct (Hu eq_refl) as [Hj _]. congruence. }
  assert (Hdis : Page.disableControls (Page.observe (Page.ui w) r) = true).
  { unfold Page.disableControls. rewrite is_terminal_job_active. simpl.
    now rewrite Hup, Hid, Hnt. }
  eexists. split.
  - simpl. rewrite He, Hfl, Hlive. reflexivity.
  - simpl. split; [reflexivity|]. split; [exact Hdis|].
    split; [unfold Page.submit_disabled; now rewrite Hdis|].
    split; [now rewrite Hint|].
    intros outcome. unfold Page.fetch_event.
    destruct (Api.fetchJobStatus outcome); simpl; now rewrite Hfl.
Qed.

(** The second status request is answered [done] before the first one is
    answered [running]. *)
Lemma late_response_after_terminal_sticks_witness :
  let file := {| Uploader.name := "clip.wav"; Uploader.type := "audio/wav";
                 Uploader.size := 4096%Z |} in
  let no_urls := {| Types.pdf := None; Types.musicxml := None; Types.midi := None |} in
  let answer st p :=
    {| Types.status := st; Types.progress := p; Types.error_text := None;
       Types.urls := no_urls; Types.meta := None |} in
  let evs := [Page.Files (Some [file]); Page.Submit;
              Page.UploadResolved {| Types.job_id := "job-1" |};
              Page.Tick;
              Page.FetchResolved (answer Types.done 100%Z)] in
  Page.disableControls (Page.ui (Page.after evs)) = false
  /\ exists w',
       Page.step (Page.after evs) (Page.FetchResolved (answer Types.running 50%Z))
       = Some w'
       /\ Page.disableControls (Page.ui w') = true
       /\ Page.step w' Page.Tick = None.
Proof.
  intros file no_urls answer evs.
  split; [reflexivity|].
  destruct (late_response_after_terminal_sticks evs (Page.after evs)
              {| Page.cancelled := false; Page.interval := false; Page.fired := 1;
                 Page.started := [0; 1000]%Z; Page.in_flight := 1 |}
              (answer Types.running 50%Z)
              eq_refl eq_refl eq_refl eq_refl eq_refl eq_refl)
    as [w' [Hstep [_ [Hdis [_ [Htick _]]]]]].
  exists w'. repeat split; assumption.
Defined.

(** Once the upload has resolved with an empty job id the page holds it,
    is not uploading, has observed nothing and polls nothing; no event
    that can happen changes that, the job id or the requests sent. *)
Lemma empty_job_id_step (w w' : Page.World) (ev : Page.Event) :
  Page.step w ev = Some w' ->
  ((exists id, Page.jobId (Page.ui w) = Some id /\ Js.truthy_string id = false)
   /\ Page.isUploading (Page.ui w) = false
   /\ Page.status (Page.ui w) = Types.queued
   /\ Page.jobResult (Page.ui w) = None
   /\ Page.xhr_pending w = 0
   /\ (forall e, Page.effect w = Some e ->
                 Page.cancelled e = true /\ Page.interval e = false)) ->
  ((exists id, Page.jobId (Page.ui w') = Some id /\ Js.truthy_string id = false)
   /\ Page.isUploading (Page.ui w') = false
   /\ Page.status (Page.ui w') = Types.queued
   /\ Page.jobResult (Page.ui w') = None
   /\ Page.xhr_pending w' = 0
   /\ (forall e, Page.effect w' = Some e ->
                 Page.cancelled e = true /\ Page.interval e = false))
  /\ Page.jobId (Page.ui w') = Page.jobId (Page.ui w)
  /\ Page.sent w' = Page.sent w.
Proof.
  intros Hstep [[id [Hid Hfalsy]] [Hup [Hst [Hr [Hp Hdead]]]]].
  assert (Hdis : Page.disableControls (Page.ui w) = true).
  { unfold Page.disableControls, Page.job_active. now rewrite Hup, Hid, Hst. }
  destruct ev; simpl in Hstep.
  - injection Hstep as <-.
    destruct (apply_uploader_keeps (Page.ui w) (Uploader.handleFiles files))
      as [H1 [H2 [H3 H4]]].
    simpl. rewrite H1, H2, H3, H4, commit_jobId_same. eauto 12.
  - destruct (Page.selectedFile (Page.ui w)); [|discriminate].
    rewrite Hup in Hstep. injection Hstep as <-.
    simpl. rewrite commit_jobId_same. eauto 12.
  - rewrite Hdis in Hstep. discriminate.
  - unfold Page.submit_disabled in Hstep. rewrite Hdis in Hstep. discriminate.
  - rewrite Hp in Hstep. discriminate.
  - rewrite Hp in Hstep. discriminate.
  - rewrite Hp in Hstep. discriminate.
  - destruct (Page.effect w) as [e|]; [|discriminate].
    destruct (Hdead e eq_refl) as [_ Hint]. rewrite Hint in Hstep. discriminate.
  - destruct (Page.effect w) as [e|]; [|discriminate].
    destruct (Hdead e eq_refl) as [Hcan Hint].
    destruct (Page.in_flight e); [discriminate|].
    rewrite Hcan in Hstep. injection Hstep as <-. simpl.
    repeat split; eauto;
      match goal with H : Some _ = Some _ |- _ => injection H as <- end;
      simpl; [exact Hcan|now rewrite Hint].
  - destruct (Page.effect w) as [e|]; [|discriminate].
    destruct (Hdead e eq_refl) as [Hcan Hint].
    destruct (Page.in_flight e); [discriminate|].
    rewrite Hcan in Hstep. injection Hstep as <-. simpl.
    repeat split; eauto;
      match goal with H : Some _ = Some _ |- _ => injection H as <- end;
      simpl; [exact Hcan|now rewrite Hint].
  - unfold Page.resultsUrls in Hstep. rewrite Hr in Hstep. discriminate.
Qed.

Lemma empty_job_id_run (evs : list Page.Event) :
  forall (w w2 : Page.World),
    Page.run w evs = Some w2 ->
    ((exists id, Page.jobId (Page.ui w) = Some id /\ Js.truthy_string id = false)
     /\ Page.isUploading (Page.ui w) = false
     /\ Page.status (Page.ui w) = Types.queued
     /\ Page.jobResult (Page.ui w) = None
     /\ Page.xhr_pending w = 0
     /\ (forall e, Page.effect w = Some e ->
                   Page.cancelled e = true /\ Page.interval e = false)) ->
    ((exists id, Page.jobId (Page.ui w2) = Some id /\ Js.truthy_string id = false)
     /\ Page.isUploading (Page.ui w2) = false
     /\ Page.status (Page.ui w2) = Types.queued
     /\ Page.jobResult (Page.ui w2) = None
     /\ Page.xhr_pending w2 = 0
     /\ (forall e, Page.effect w2 = Some e ->
                   Page.cancelled e = true /\ Page.interval e = false))
    /\ Page.jobId (Page.ui w2) = Page.jobId (Page.ui w)
    /\ Page.sent w2 = Page.sent w.
Proof.
  induction evs as [|ev evs IH]; intros w w2 Hrun H; simpl in Hrun.
  - injection Hrun as <-. auto.
  - destruct (Page.step w ev) as [w1|] eqn:Hstep; [|discriminate].
    destruct (empty_job_id_step w w1 ev Hstep H) as [H1 [Hjob1 Hsent1]].
    destruct (IH w1 w2 Hrun H1) as [H2 [Hjob2 Hsent2]].
    split; [exact H2|]. split; congruence.
Qed.

(** X13.  If the upload resolves with an empty job id, the page keeps
    it as the job id but never polls for it: from then on, whatever
    happens, the controls stay disabled, the form cannot be submitted
    or reset, no timer fires and no request is sent. *)
Theorem empty_job_id_disables_for_good :
  forall (evs0 : list Page.Event) (w0 w1 : Page.World)
         (response : Types.CreateJobResponse),
    Page.run Page.initial_world evs0 = Some w0 ->
    Page.step w0 (Page.UploadResolved response) = Some w1 ->
    Js.truthy_string (Types.job_id response) = false ->
    forall (evs : list Page.Event) (w2 : Page.World),
      Page.run w1 evs = Some w2 ->
      Page.jobId (Page.ui w2) = Some (Types.job_id response)
      /\ Page.disableControls (Page.ui w2) = true
      /\ Page.step w2 Page.Submit = None
      /\ Page.step w2 Page.Reset = None
      /\ Page.step w2 Page.Tick = None
      /\ Page.sent w2 = Page.sent w0.
Proof.
  intros evs0 w0 w1 response Hrun0 Hstep Hfalsy evs w2 Hrun.
  pose proof (invariant_run evs0 _ _ invariant_initial Hrun0) as [Hp Hu _ _ _].
  simpl in Hstep.
  destruct (Page.xhr_pending w0) as [|n] eqn:En; [discriminate|].
  destruct (Page.isUploading (Page.ui w0)) eqn:Eup; [|discriminate].
  injection Hp as ->.
  destruct (Hu eq_refl) as [Hj [Hst Hr]].
  injection Hstep as <-.
  destruct (empty_job_id_run evs _ w2 Hrun)
    as [[[id [Hid Hf]] [Hup [Hst2 [Hr2 [Hp2 Hdead]]]]] [Hjob Hsent]].
  { simpl. rewrite Hj. unfold Page.commit_jobId. simpl. rewrite Hfalsy.
    split; [eauto|]. repeat (split; [assumption || reflexivity|]).
    intros e He. destruct (Page.effect w0); [|discriminate].
    injection He as <-. split; reflexivity. }
  simpl in Hjob, Hsent.
  assert (Hdis : Page.disableControls (Page.ui w2) = true).
  { unfold Page.disableControls, Page.job_active. now rewrite Hup, Hid, Hst2. }
  repeat split; try assumption.
  - simpl. unfold Page.submit_disabled. now rewrite Hdis.
  - simpl. unfold Page.resultsUrls. now rewrite Hr2.
  - simpl. destruct (Page.effect w2) as [e|]; [|reflexivity].
    destruct (Hdead e eq_refl) as [_ Hint]. now rewrite Hint.
Qed.

Lemma empty_job_id_disables_for_good_witness :
  let file := {| Uploader.name := "clip.wav"; Uploader.type := "audio/wav";
                 Uploader.size := 4096%Z |} in
  let other := {| Uploader.name := "other.mp3"; Uploader.type := "audio/mpeg";
                  Uploader.size := 512%Z |} in
  let evs0 := [Page.Files (Some [file]); Page.Submit] in
  let response := {| Types.job_id := EmptyString |} in
  let evs := [Page.Files (Some [other]); Page.ClearFile] in
  Page.run (Page.after (evs0 ++ [Page.UploadResolved response])) evs
  = Some (Page.after (evs0 ++ [Page.UploadResolved response] ++ evs))
  /\ Page.disableControls
       (Page.ui (Page.after (evs0 ++ [Page.UploadResolved response] ++ evs))) = true.
Proof.
  intros file other evs0 response evs.
  assert (Hrun : Page.run (Page.after (evs0 ++ [Page.UploadResolved response])) evs
                 = Some (Page.after (evs0 ++ [Page.UploadResolved response] ++ evs)))
    by reflexivity.
  split; [exact Hrun|].
  destruct (empty_job_id_disables_for_good evs0 (Page.after evs0)
              (Page.after (evs0 ++ [Page.UploadResolved response])) response
              eq_refl eq_refl eq_refl evs _ Hrun) as [_ [Hdis _]].
  exact Hdis.
Defined.

(** ** What the panels show ([JobStatus.tsx], [Results.tsx], [page.tsx]) *)

(** X14.  The status panel right after a response is observed.  For an
    [error] response it shows neither bar nor caption but the error box,
    with the server's message or [Unknown error encountered. Please try
    again.]; the description that [poll] computes for it (its [An error
    occurred] included) is not rendered.  For any other response it
    shows the bar and, as caption, the description that [poll] chose,
    never one of the panel's own two fallback captions; the ready notice
    appears exactly at [done]. *)
Theorem status_panel_after_response :
  forall (s : Page.State) (r : Types.JobStatusResponse),
    JobStatus.badge (Page.status_panel (Page.observe s r))
    = JobStatus.statusLabels (Types.status r)
    /\ (Types.status r = Types.error ->
        JobStatus.bar (Page.status_panel (Page.observe s r)) = None
        /\ JobStatus.caption (Page.status_panel (Page.observe s r)) = None
        /\ JobStatus.error_box (Page.status_panel (Page.observe s r))
           = Some match Types.error_text r with
                  | Some e => e
                  | None => "Unknown error encountered. Please try again."
                  end
        /\ JobStatus.ready_notice (Page.status_panel (Page.observe s r)) = false)
    /\ (Types.status r <> Types.error ->
        JobStatus.error_box (Page.status_panel (Page.observe s r)) = None
        /\ JobStatus.bar (Page.status_panel (Page.observe s r))
           = Some {| JobStatus.bar_class :=
                       if Types.JobStatus_eqb (Types.status r) Types.done
                       then "bg-emerald-400" else "bg-accent";
                     JobStatus.width :=
                       Js.String_of_Z
                         (JobStatus.bar_percent (Types.status r) (Types.progress r))
                       ++ "%" |}
        /\ JobStatus.caption (Page.status_panel (Page.observe s r)) = Page.describe r
        /\ JobStatus.caption (Page.status_panel (Page.observe s r))
           <> Some "Transcribing and engraving…"
        /\ JobStatus.caption (Page.status_panel (Page.observe s r))
           <> Some "Waiting for job to start…"
        /\ (JobStatus.ready_notice (Page.status_panel (Page.observe s r)) = true
            <-> Types.status r = Types.done)).
Proof.
  intros s r.
  unfold Page.status_panel, Page.observe, JobStatus.JobStatusPanel, Page.describe.
  cbn [Page.status Page.progress Page.jobResult Page.statusDescription].
  destruct (Types.status r) eqn:Est; cbn [Types.JobStatus_eqb negb];
    cbn [JobStatus.badge JobStatus.bar JobStatus.caption JobStatus.error_box
         JobStatus.ready_notice];
    (split; [reflexivity|]); (split; [intros Herr; try discriminate Herr|]);
    try (intros Hne; try (now contradiction Hne));
    repeat split; try reflexivity; try discriminate;
    try (destruct (Types.progress r <? 50)%Z; [discriminate || reflexivity|];
         destruct (Types.progress r <? 90)%Z; discriminate || reflexivity).
Qed.

(** X15.  The download section is absent exactly when none of the three
    urls is a non-empty string; when it is there it has the three links
    PDF score, MusicXML and MIDI in that order, a link is enabled
    exactly when its url is a non-empty string, and at least one link is
    enabled. *)
Theorem downloads_links :
  forall (urls : Types.JobArtifactUrls),
    (Results.downloads urls = None
     <-> forall u, In (Some u) [Types.pdf urls; Types.musicxml urls; Types.midi urls] ->
                   u = EmptyString)
    /\ forall links,
         Results.downloads urls = Some links ->
         map Results.anchor_label links = ["PDF score"; "MusicXML"; "MIDI"]
         /\ map Results.href links
            = [Types.pdf urls; Types.musicxml urls; Types.midi urls]
         /\ (forall l, In l links ->
               (Results.aria_disabled l = false
                <-> exists u, Results.href l = Some u /\ u <> EmptyString))
         /\ exists l, In l links /\ Results.aria_disabled l = false.
Proof.
  intros [pdf musicxml midi].
  assert (Htruthy : forall u : option string,
             match u with Some x => Js.truthy_string x | None => false end = true
             <-> exists x, u = Some x /\ x <> EmptyString).
  { intros [x|]; simpl.
    - rewrite truthy_string_nonempty. split.
      + intros H. now exists x.
      + intros [x' [[= <-] H]]. exact H.
    - split; [discriminate|]. intros [x [H _]]. discriminate H. }
  unfold Results.downloads, Results.hasResults, Results.download_links.
  cbn [Types.pdf Types.musicxml Types.midi].
  split.
  - destruct (match pdf with Some s => Js.truthy_string s | None => false end) eqn:E1;
      [|destruct (match musicxml with Some s => Js.truthy_string s | None => false end)
          eqn:E2;
        [|destruct (match midi with Some s => Js.truthy_string s | None => false end)
            eqn:E3]];
      cbn [orb negb]; split; try discriminate; try reflexivity.
    + intros H. apply Htruthy in E1 as [x [-> Hx]].
      contradiction Hx. apply H. now left.
    + intros H. apply Htruthy in E2 as [x [-> Hx]].
      contradiction Hx. apply H. right. now left.
    + intros H. apply Htruthy in E3 as [x [-> Hx]].
      contradiction Hx. apply H. right. right. now left.
    + intros _ u [Hu|[Hu|[Hu|[]]]]; subst;
        simpl in *; destruct u; try reflexivity; discriminate.
  - intros links Hlinks.
    destruct (negb _) eqn:Eshow in Hlinks; [discriminate|].
    injection Hlinks as <-.
    apply negb_false_iff in Eshow.
    cbn [map Results.downloadItems fst snd Results.url_of String.eqb Ascii.eqb
         Bool.eqb Results.anchor_label Results.href Types.pdf Types.musicxml
         Types.midi].
    split; [reflexivity|]. split; [reflexivity|]. split.
    + intros l [<-|[<-|[<-|[]]]]; cbn [Results.aria_disabled Results.href];
        rewrite negb_false_iff; apply Htruthy.
    + apply orb_true_iff in Eshow as [Eshow|E3];
        [apply orb_true_iff in Eshow as [E1|E2]|].
      * eexists. split; [left; reflexivity|].
        cbn [Results.aria_disabled]. now rewrite E1.
      * eexists. split; [right; left; reflexivity|].
        cbn [Results.aria_disabled]. now rewrite E2.
      * eexists. split; [right; right; left; reflexivity|].
        cbn [Results.aria_disabled]. now rewrite E3.
Qed.

(** X16.  When the upload resolves, the state cell [progress] still
    holds the last upload percentage, and the status panel shows it as
    the job's bar, under the badge [Queued] and the caption [Queued for
    processing…], until the first status response is observed. *)
Theorem upload_percentage_shown_as_job_progress :
  forall (evs : list Page.Event) (w w' : Page.World)
         (response : Types.CreateJobResponse),
    Page.run Page.initial_world evs = Some w ->
    Page.step w (Page.UploadResolved response) = Some w' ->
    Page.progress (Page.ui w') = Page.progress (Page.ui w)
    /\ Page.status_panel (Page.ui w')
       = {| JobStatus.badge := "Queued";
            JobStatus.bar :=
              Some {| JobStatus.bar_class := "bg-accent";
                      JobStatus.width :=
                        Js.String_of_Z (Page.progress (Page.ui w)) ++ "%" |};
            JobStatus.caption := Some "Queued for processing…";
            JobStatus.error_box := None;
            JobStatus.ready_notice := false |}.
Proof.
  intros evs w w' response Hrun Hstep.
  pose proof (invariant_run evs _ _ invariant_initial Hrun) as [Hp Hu _ _ _].
  simpl in Hstep.
  destruct (Page.xhr_pending w) as [|n]; [discriminate|].
  destruct (Page.isUploading (Page.ui w)) eqn:Eup; [|discriminate].
  destruct (Hu eq_refl) as [_ [Hst Hr]].
  injection Hstep as <-.
  split; [reflexivity|].
  unfold Page.status_panel, JobStatus.JobStatusPanel.
  cbn [Page.ui Page.upload_resolved Page.status Page.progress Page.jobResult
       Page.statusDescription].
  rewrite Hst, Hr. reflexivity.
Qed.

Lemma upload_percentage_shown_as_job_progress_witness :
  let file := {| Uploader.name := "clip.wav"; Uploader.type := "audio/wav";
                 Uploader.size := 4096%Z |} in
  let evs := [Page.Files (Some [file]); Page.Submit; Page.UploadProgress 100%Z None] in
  let w' := Page.after (evs ++ [Page.UploadResolved {| Types.job_id := "job-1" |}]) in
  option_map JobStatus.width (JobStatus.bar (Page.status_panel (Page.ui w')))
  = Some "100%".
Proof.
  intros file evs w'.
  destruct (upload_percentage_shown_as_job_progress evs (Page.after evs) w'
              {| Types.job_id := "job-1" |} eq_refl eq_refl) as [_ Hpanel].
  rewrite Hpanel. reflexivity.
Defined.
